(** * cds-services-tutorial: a shallow embedding of [index.js]

    The program is an Express application answering CDS Hooks calls.  The
    embedding keeps the shapes of the source:

    - request bodies and the cards built by the handlers are JavaScript
      values ([value]); an object is an association list, so the order of
      its keys (which [JSON.stringify] shows) is kept;
    - property reads and indexing follow JavaScript: reading a property of
      [undefined] or [null] throws a [TypeError], a missing property reads
      as [undefined], a string indexes to its characters;
    - the Express response object is a record that is passed along
      ([Res]); what reaches the client is frozen when [send] or [end] is
      called ([Wire]);
    - the promise of the outbound search is settled by the environment
      ([settled]); the handler that waits for it runs in two parts, the
      statements up to its return and the callbacks that run once the
      promise has settled.

    [console.log] has no effect on any response and is left out.  A body
    sent as [JSON.stringify v] is modelled by [v] itself.  Of the
    framework only what the handlers rely on is modelled: the response
    object, and the answer Express gives when a handler throws before it
    returns ([served]). *)

From Stdlib Require Import String Ascii List ZArith Bool Lia DecimalString.
Import ListNotations.
Open Scope string_scope.
Set Warnings "-register-all".

(** ** JavaScript values *)

Module JS.

(** Numbers are restricted to integers; below 10^21 in magnitude
    JavaScript prints them in plain decimal notation, as [decimal] does.
    Text is a sequence of characters of one UTF-16 code unit each, as in
    ASCII text.  [plain], further down, names the values inside these
    bounds. *)
Inductive value : Type :=
| VUndef
| VNull
| VBool (b : bool)
| VNum (z : Z)
| VStr (s : string)
| VArr (l : list value)
| VObj (fields : list (string * value)).

(** What the program can see thrown: a [TypeError] of the language, the
    error of writing to a response that was already sent, and the errors
    of the token library. *)
Inductive exn : Type :=
| TypeError
| HeadersSent
| JsonWebTokenError (message : string).

Inductive result (A : Type) : Type :=
| Ok (a : A)
| Throw (e : exn).
Arguments Ok {A} a.
Arguments Throw {A} e.

Definition bind {A B} (m : result A) (k : A -> result B) : result B :=
  match m with
  | Ok a => k a
  | Throw e => Throw e
  end.

Notation "x <- m ;; k" := (bind m (fun x => k))
  (at level 61, m at next level, right associativity).

(** The quotation mark, for the header templates. *)
Definition dq : string := String "034"%char EmptyString.

Fixpoint lookup (k : string) (fs : list (string * value)) : option value :=
  match fs with
  | [] => None
  | (k', v) :: fs' => if String.eqb k k' then Some v else lookup k fs'
  end.

(** [o.k = v] on an object: an existing key keeps its place. *)
Fixpoint assign (k : string) (v : value) (fs : list (string * value))
  : list (string * value) :=
  match fs with
  | [] => [(k, v)]
  | (k', v') :: fs' =>
      if String.eqb k k' then (k, v) :: fs' else (k', v') :: assign k v fs'
  end.

Definition of_option (o : option value) : value :=
  match o with
  | Some v => v
  | None => VUndef
  end.

Definition decimal (z : Z) : string := NilZero.string_of_int (Z.to_int z).

Definition char_at (n : nat) (s : string) : value :=
  match String.get n s with
  | Some c => VStr (String c EmptyString)
  | None => VUndef
  end.

(** [v.k] for the property names the program reads; none of them is
    inherited from a prototype except [length]. *)
Definition get (v : value) (k : string) : result value :=
  match v with
  | VUndef | VNull => Throw TypeError
  | VObj fs => Ok (of_option (lookup k fs))
  | VArr l =>
      Ok (if String.eqb k "length" then VNum (Z.of_nat (List.length l))
          else VUndef)
  | VStr s =>
      Ok (if String.eqb k "length" then VNum (Z.of_nat (String.length s))
          else VUndef)
  | VBool _ | VNum _ => Ok VUndef
  end.

(** [v[n]] *)
Definition index (v : value) (n : nat) : result value :=
  match v with
  | VUndef | VNull => Throw TypeError
  | VArr l => Ok (nth n l VUndef)
  | VStr s => Ok (char_at n s)
  | VObj fs => Ok (of_option (lookup (decimal (Z.of_nat n)) fs))
  | VBool _ | VNum _ => Ok VUndef
  end.

Definition truthy (v : value) : bool :=
  match v with
  | VUndef | VNull => false
  | VBool b => b
  | VNum z => negb (Z.eqb z 0)
  | VStr s => negb (String.eqb s "")
  | VArr _ | VObj _ => true
  end.

(** [ToString], as used by [+] on a string and by template literals.
    Inside [Array.prototype.join], [null] and [undefined] print as the
    empty string. *)
Fixpoint to_string (v : value) : string :=
  match v with
  | VUndef => "undefined"
  | VNull => "null"
  | VBool true => "true"
  | VBool false => "false"
  | VNum z => decimal z
  | VStr s => s
  | VArr l =>
      String.concat ","
        (List.map (fun x => match x with
                            | VUndef | VNull => ""
                            | _ => to_string x
                            end) l)
  | VObj _ => "[object Object]"
  end.

(** [v === s] for a string [s]. *)
Definition strict_eq_str (v : value) (s : string) : bool :=
  match v with
  | VStr t => String.eqb t s
  | _ => false
  end.

(** [v == s] for a string [s] that is not a numeric literal: a number or a
    boolean is compared with [NaN], an array or object through its
    [ToString]. *)
Definition loose_eq_str (v : value) (s : string) : bool :=
  match v with
  | VStr t => String.eqb t s
  | VArr _ | VObj _ => String.eqb (to_string v) s
  | VUndef | VNull | VBool _ | VNum _ => false
  end.

Fixpoint starts_with (p s : string) : bool :=
  match p, s with
  | EmptyString, _ => true
  | String a p', String b s' => Ascii.eqb a b && starts_with p' s'
  | String _ _, EmptyString => false
  end.

Fixpoint drop (n : nat) (s : string) : string :=
  match n, s with
  | O, _ => s
  | S n', String _ s' => drop n' s'
  | S _, EmptyString => EmptyString
  end.

(** [s.includes(p)] on strings *)
Fixpoint contains (p s : string) : bool :=
  starts_with p s ||
  match s with
  | EmptyString => false
  | String _ s' => contains p s'
  end.

(** [s.replace(p, r)] with a string pattern: the first occurrence only.
    The replacement strings of the program hold no [$]. *)
Fixpoint replace (p r s : string) : string :=
  if starts_with p s then r ++ drop (String.length p) s
  else match s with
       | EmptyString => EmptyString
       | String c s' => String c (replace p r s')
       end.

(** [v.includes(s)] for a string argument: element search on an array,
    substring search on a string, a [TypeError] on anything else (no such
    method, or no property read at all). *)
Definition includes (v : value) (s : string) : result bool :=
  match v with
  | VArr l => Ok (existsb (fun x => strict_eq_str x s) l)
  | VStr t => Ok (contains s t)
  | _ => Throw TypeError
  end.

End JS.
Import JS.

(** ** The Express request and response objects *)

Record Request : Type := {
  method : string;
  protocol : string;
  host : option string;            (* request.get('Host') *)
  authorization : option string;   (* request.get('Authorization') *)
  originalUrl : string;
  path : string;
  body : value
}.

(** What the client receives: frozen when the response is sent. *)
Record Wire : Type := {
  w_status : Z;
  w_headers : list (string * string);
  w_body : option value            (* [None]: no body *)
}.

Record Res : Type := {
  statusCode : Z;
  headers : list (string * string);
  wire : option Wire               (* [None]: nothing sent yet *)
}.

Definition fresh : Res :=
  {| statusCode := 200; headers := []; wire := None |}.

Fixpoint header_put (k v : string) (hs : list (string * string))
  : list (string * string) :=
  match hs with
  | [] => [(k, v)]
  | (k', v') :: hs' =>
      if String.eqb k k' then (k, v) :: hs' else (k', v') :: header_put k v hs'
  end.

Fixpoint header_get (k : string) (hs : list (string * string))
  : option string :=
  match hs with
  | [] => None
  | (k', v) :: hs' => if String.eqb k k' then Some v else header_get k hs'
  end.

(** [response.setHeader(k, v)] and [response.set(k, v)]; the program calls
    them only on a response that was not sent. *)
Definition setHeader (k v : string) (r : Res) : Res :=
  {| statusCode := statusCode r;
     headers := header_put k v (headers r);
     wire := wire r |}.

(** [response.status(n)] only records the code; it sends nothing. *)
Definition status (n : Z) (r : Res) : Res :=
  {| statusCode := n; headers := headers r; wire := wire r |}.

Definition freeze (b : option value) (r : Res) : Res :=
  {| statusCode := statusCode r;
     headers := headers r;
     wire := Some {| w_status := statusCode r;
                     w_headers := headers r;
                     w_body := b |} |}.

(** [response.end()] *)
Definition end_ (r : Res) : Res :=
  match wire r with
  | None => freeze None r
  | Some _ => r
  end.

(** [response.send(JSON.stringify(v, null, 2))] *)
Definition send (v : value) (r : Res) : result Res :=
  match wire r with
  | None => Ok (freeze (Some v) r)
  | Some _ => Throw HeadersSent
  end.

(** How a middleware or a route handler leaves the response. *)
Inductive outcome : Type :=
| Next (r : Res)                   (* [next()] was called *)
| Done (r : Res)                   (* returned without calling [next()] *)
| Threw (e : exn) (r : Res).

Definition res_of (o : outcome) : Res :=
  match o with
  | Next r | Done r | Threw _ r => r
  end.

Definition sent (o : outcome) : option Wire := wire (res_of o).

(** ** CORS middleware (index.js 22-32) *)

Definition cors (r : Res) : outcome :=
  Next
    (setHeader "Access-Control-Expose-Headers"
       ("Origin, Accept, Content-Location, " ++ "Location, X-Requested-With")
    (setHeader "Access-Control-Allow-Headers" "Content-Type, Authorization"
    (setHeader "Access-Control-Allow-Credentials" "true"
    (setHeader "Access-Control-Allow-Methods" "GET, POST, OPTIONS"
    (setHeader "Access-Control-Allow-Origin" "https://sandbox.cds-hooks.org"
       r))))).

(** ** Authorization middleware (index.js 38-108) *)

Record VerifyOptions : Type := {
  algorithms : list string;
  audience : string;
  issuer : list string;
  clockTolerance : Z
}.

Definition publicKeySet : value :=
  VObj [("keys", VArr [
    VObj [("kty", VStr "EC");
          ("use", VStr "sig");
          ("crv", VStr "P-384");
          ("kid", VStr "44823f3d-0b01-4a6c-a80e-b9d3e8a7226f");
          ("x", VStr "dw_JGR8nB2I6XveNxUOl2qk699ZPLM2nYI5STSdiEl9avAkrm3CkfYMbrrjr8laB");
          ("y", VStr "Sm3mLE-n1zYNla_aiE3cb3nZsL51RbC7ysw3q8aJLxGm-hx79RPMYpITDjp7kgzy");
          ("alg", VStr "ES384")]])].

(** [publicKeySet.keys[0]] *)
Definition publicKey : value :=
  match (ks <- get publicKeySet "keys" ;; index ks 0) with
  | Ok k => k
  | Throw _ => VUndef
  end.

(** The challenge of both 401 answers:
    [Bearer realm="${serviceHost}", error="...", error_description="..."] *)
Definition challenge (serviceHost : value) (error description : string)
  : string :=
  "Bearer realm=" ++ dq ++ to_string serviceHost ++ dq
  ++ ", error=" ++ dq ++ error ++ dq
  ++ ", error_description=" ++ dq ++ description ++ dq.

Definition header_value (h : option string) : value :=
  match h with
  | Some s => VStr s
  | None => VUndef
  end.

Definition reject (serviceHost : value) (description : string) (r : Res)
  : outcome :=
  Done (end_ (status 401
    (setHeader "WWW-Authenticate"
       (challenge serviceHost "invalid_token" description) r))).

Section Gate.

(** The two library calls of the middleware, [jwkToPem] (jwk-to-pem) and
    [jwt.verify] (jsonwebtoken), are not part of the program.  The
    verifier also reads the clock. *)
Variable jwkToPem : value -> string.
Variable jwt_verify : Z -> string -> string -> VerifyOptions -> result value.

Definition aud_of (req : Request) : string :=
  protocol req ++ "://" ++ to_string (header_value (host req))
  ++ originalUrl req.

Definition options_of (req : Request) : VerifyOptions :=
  {| algorithms := ["ES384"; "RS384"];
     audience := aud_of req;
     issuer := ["https://sandbox.cds-hooks.org"];
     clockTolerance := 5 * 60 |}.

Definition token_of (authorizationHeader : string) : string :=
  replace "Bearer " "" authorizationHeader.

Definition gate (now : Z) (req : Request) (r : Res) : outcome :=
  if String.eqb (method req) "OPTIONS" then Next r
  else
    let serviceHost := header_value (host req) in
    let authorizationHeader := header_value (authorization req) in
    if negb (truthy authorizationHeader)
       || negb (starts_with "Bearer" (to_string authorizationHeader))
    then reject serviceHost "No Bearer token provided." r
    else
      let token := token_of (to_string authorizationHeader) in
      let pem := jwkToPem publicKey in
      match jwt_verify now token pem (options_of req) with
      | Ok decoded => Next r
      | Throw err => reject serviceHost "The token is invalid." r
      end.

End Gate.

(** ** Discovery endpoint (index.js 116-150) *)

Definition patientViewExample : value :=
  VObj [("hook", VStr "patient-view");
        ("id", VStr "patient-view-example");
        ("title", VStr "Example patient-view CDS Service");
        ("description", VStr "Displays the name and gender of the patient");
        ("prefetch",
         VObj [("requestedPatient", VStr "Patient/{{context.patientId}}")])].

Definition patientViewHypertension : value :=
  VObj [("hook", VStr "patient-view");
        ("id", VStr "patient-view-hypertension");
        ("title", VStr "Example patient-view CDS Service for hypertension");
        ("description",
         VStr "Returns a warning if the patient has hypertension")].

Definition orderSelectExample : value :=
  VObj [("hook", VStr "order-select");
        ("id", VStr "order-select-example");
        ("title", VStr "Example order-select CDS Service");
        ("description",
         VStr "Suggests prescribing Aspirin 81 MG Oral Tablets")].

Definition discoveryEndpointServices : value :=
  VObj [("services",
         VArr [patientViewExample; patientViewHypertension;
               orderSelectExample])].

(** A handler that sends [v] and returns. *)
Definition reply (v : value) (r : Res) (after : Res -> Res) : outcome :=
  match send v r with
  | Ok r' => Done (after r')
  | Throw e => Threw e r
  end.

Definition discovery (r : Res) : outcome :=
  reply discoveryEndpointServices r (fun r' => r').

(** ** Patient View Example Service (index.js 159-191) *)

Definition tutorial_source (url : string) : value :=
  VObj [("label", VStr "CDS Service Tutorial"); ("url", VStr url)].

(** [request.body.prefetch.requestedPatient] *)
Definition requestedPatient_of (b : value) : result value :=
  prefetch <- get b "prefetch" ;;
  get prefetch "requestedPatient".

Definition patientViewCard (patientResource : value) : result value :=
  name <- get patientResource "name" ;;
  name0 <- index name 0 ;;
  given <- get name0 "given" ;;
  given0 <- index given 0 ;;
  family <- get name0 "family" ;;
  family0 <- index family 0 ;;
  birthDate <- get patientResource "birthDate" ;;
  Ok (VObj [("cards", VArr [
    VObj [("summary",
           VStr ("Now seeing: " ++ to_string given0 ++ " "
                 ++ to_string family0));
          ("detail", VStr ("Patient birthdate: " ++ to_string birthDate));
          ("indicator", VStr "info");
          ("source",
           tutorial_source
             "https://github.com/cerner/cds-services-tutorial/wiki/Patient-View-Service");
          ("links", VArr [
             VObj [("label", VStr "Learn more about CDS Hooks");
                   ("url", VStr "http://cds-hooks.org");
                   ("type", VStr "absolute")];
             VObj [("label", VStr "Launch SMART App!");
                   ("url",
                    VStr "https://engineering.cerner.com/smart-on-fhir-tutorial/example-smart-app/launch.html");
                   ("type", VStr "smart")]])]])]).

Definition patient_view_example (req : Request) (r : Res) : outcome :=
  match
    (patientResource <- requestedPatient_of (body req) ;;
     patientViewCard patientResource)
  with
  | Ok card => reply card r (fun r' => r')
  | Throw e => Threw e r
  end.

(** ** The outbound search (index.js 255-308) *)

(** How the environment settles the promise of the HTTP library: with a
    response object, or with a rejection reason (an error object or a
    failed response). *)
Inductive settled : Type :=
| Resolved (res : value)
| Rejected (reason : value).

(** The error object of a [TypeError] thrown inside a [then] callback. *)
Definition type_error_object : value :=
  VObj [("message", VStr "Cannot read properties of undefined")].

Definition hypertension_code : string := "http://snomed.info/sct|1201005".


(** What the promise returned by [retrieveHypertensionConditionsAxios] is
    fulfilled with ([Ok]) or rejected with ([Throw]). *)
Definition retrieveHypertensionConditionsAxios (s : settled) : result value :=
  match s with
  | Resolved result =>
      match
        (data <- get result "data" ;;
         if truthy data
         then resourceType <- get data "resourceType" ;;
              if truthy resourceType && strict_eq_str resourceType "Bundle"
              then Ok data
              else Ok VUndef
         else Ok VUndef)
      with
      | Ok v => Ok v
      | Throw _ => Ok VUndef       (* .catch: logs, returns nothing *)
      end
  | Rejected error => Ok VUndef    (* .catch: logs, returns nothing *)
  end.

(** The arguments of [fhir(config)] and of [client.search]. *)
Definition fhirjs_call (fhirServer patientId fhirAuthorization : value)
  : result (value * value) :=
  let config := [("baseUrl", fhirServer)] in
  token <- (if truthy fhirAuthorization
            then get fhirAuthorization "access_token"
            else Ok fhirAuthorization) ;;
  let config :=
    if truthy token
    then assign "auth" (VObj [("bearer", token)]) config
    else config in
  Ok (VObj config,
      VObj [("type", VStr "Condition");
            ("query", VObj [("patient", patientId);
                            ("code", VStr hypertension_code)])]).

(** The [catch] callback of the fhir.js variant reads [res.status] and
    [res.message] and returns nothing. *)
Definition fhirjs_catch (res : value) : result value :=
  st <- get res "status" ;;
  msg <- get res "message" ;;
  Ok VUndef.

Definition retrieveHypertensionConditionsFhirJs (s : settled) : result value :=
  match s with
  | Resolved res =>
      match get res "data" with
      | Ok data => Ok data
      | Throw _ => fhirjs_catch type_error_object
      end
  | Rejected res => fhirjs_catch res
  end.

(** ** Hypertension service (index.js 196-224) *)

(** The [then] callback: the body to send, if any. *)
Definition patientHypertensionCard (conditionsBundle : value)
  : result (option value) :=
  entry <- get conditionsBundle "entry" ;;
  if truthy entry then
    len <- get entry "length" ;;
    if truthy len then
      entry0 <- index entry 0 ;;
      resource <- get entry0 "resource" ;;
      resourceType <- get resource "resourceType" ;;
      if loose_eq_str resourceType "Condition" then
        let condition := resource in
        code <- get condition "code" ;;
        text <- get code "text" ;;
        Ok (Some (VObj [("cards", VArr [
          VObj [("summary", VStr ("Existing condition: " ++ to_string text));
                ("indicator", VStr "warning");
                ("source",
                 tutorial_source
                   "https://github.com/cerner/cds-services-tutorial/wiki/Exercises")]])]))
      else Ok None
    else Ok None
  else Ok None.

(** The synchronous part of the handler: it reads the request, issues the
    search and records status 200.  The second component is the search
    that is now in flight. *)
Definition hypertension_begin (req : Request) (r : Res)
  : outcome * option (value * value) :=
  match
    (fhirServer <- get (body req) "fhirServer" ;;
     context <- get (body req) "context" ;;
     patientId <- get context "patientId" ;;
     fhirAuthorization <- get (body req) "fhirAuthorization" ;;
     fhirjs_call fhirServer patientId fhirAuthorization)
  with
  | Ok call => (Done (status 200 r), Some call)
  | Throw e => (Threw e r, None)
  end.

(** What runs once the search has settled: the promise chain of the
    fetcher, then the callback of the handler.  An exception here rejects
    a promise nobody listens to; the response is left as it was. *)
Definition hypertension_settle (net : settled) (r : Res) : outcome :=
  match
    (conditionsBundle <- retrieveHypertensionConditionsFhirJs net ;;
     patientHypertensionCard conditionsBundle)
  with
  | Ok (Some card) => reply card r (fun r' => r')
  | Ok None => Done r
  | Throw e => Threw e r
  end.

Definition patient_view_hypertension (req : Request) (net : settled) (r : Res)
  : outcome :=
  match hypertension_begin req r with
  | (Done r', Some _) => hypertension_settle net r'
  | (o, _) => o
  end.

(** ** Order Select Example Service (index.js 235-248, 315-376) *)

(** [o.k = v] as a statement. *)
Definition set_prop (o : value) (k : string) (v : value) : result value :=
  match o with
  | VUndef | VNull => Throw TypeError
  | VObj fs => Ok (VObj (assign k v fs))
  | _ => Ok o
  end.

Definition aspirin_concept : value :=
  VObj [("text", VStr "Aspirin 81 MG Oral Tablet");
        ("coding", VArr [
           VObj [("display", VStr "Aspirin 81 MG Oral Tablet");
                 ("system",
                  VStr "http://www.nlm.nih.gov/research/umls/rxnorm");
                 ("code", VStr "243670")]])].

Definition order_select_source : value :=
  tutorial_source
    "https://github.com/cerner/cds-services-tutorial/wiki/Order-Select-Service".

(** [newMedicationRequest] is the very object [context]; the request is
    not read again after the call, so only the returned card shows the
    assignment. *)
Definition createMedicationResponseCard (context : value) : result value :=
  concept <- get context "medicationCodeableConcept" ;;
  coding <- get concept "coding" ;;
  coding0 <- index coding 0 ;;
  providerOrderedMedication <- get coding0 "code" ;;
  if strict_eq_str providerOrderedMedication "243670" then
    Ok (VObj [("cards", VArr [
      VObj [("summary", VStr "Currently prescribing a low-dose Aspirin");
            ("indicator", VStr "info");
            ("source", order_select_source)]])])
  else
    newMedicationRequest <-
      set_prop context "medicationCodeableConcept" aspirin_concept ;;
    Ok (VObj [("cards", VArr [
      VObj [("summary",
             VStr "Reduce cardiovascular risks, prescribe daily 81 MG Aspirin");
            ("indicator", VStr "warning");
            ("suggestions", VArr [
               VObj [("label", VStr "Switch to low-dose Aspirin");
                     ("actions", VArr [
                        VObj [("type", VStr "create");
                              ("description",
                               VStr "Modifying existing medication order to be Aspirin");
                              ("resource", newMedicationRequest)]])]]);
            ("source", order_select_source)]])]).

(** [request.body.context.draftOrders.entry[0].resource] *)
Definition draftOrder_of (b : value) : result value :=
  context <- get b "context" ;;
  draftOrders <- get context "draftOrders" ;;
  entry <- get draftOrders "entry" ;;
  entry0 <- index entry 0 ;;
  get entry0 "resource".

(** [request.body.context.selections] *)
Definition selections_of (b : value) : result value :=
  context <- get b "context" ;;
  get context "selections".

(** The condition of the handler and the body to send when it holds. *)
Definition order_select_decision (draftOrder selections : value)
  : result (option value) :=
  resourceType <- get draftOrder "resourceType" ;;
  if strict_eq_str resourceType "MedicationRequest"
     || strict_eq_str resourceType "MedicationOrder"
  then
    id <- get draftOrder "id" ;;
    selected <-
      includes selections (to_string resourceType ++ "/" ++ to_string id) ;;
    if selected then
      concept <- get draftOrder "medicationCodeableConcept" ;;
      if truthy concept then
        responseCard <- createMedicationResponseCard draftOrder ;;
        Ok (Some responseCard)
      else Ok None
    else Ok None
  else Ok None.

Definition orderSelectCard (b : value) : result (option value) :=
  draftOrder <- draftOrder_of b ;;
  selections <- selections_of b ;;
  order_select_decision draftOrder selections.

Definition order_select_example (req : Request) (r : Res) : outcome :=
  match orderSelectCard (body req) with
  | Ok (Some responseCard) => reply responseCard r (status 200)
  | Ok None => Done (status 200 r)
  | Throw e => Threw e r
  end.

(** ** Routing *)

Inductive service : Type :=
| PatientViewExample
| PatientViewHypertension
| OrderSelectExample.

Definition service_path (s : service) : string :=
  match s with
  | PatientViewExample => "/cds-services/patient-view-example"
  | PatientViewHypertension => "/cds-services/patient-view-hypertension"
  | OrderSelectExample => "/cds-services/order-select-example"
  end.

Definition post (s : service) (req : Request) (net : settled) (r : Res)
  : outcome :=
  match s with
  | PatientViewExample => patient_view_example req r
  | PatientViewHypertension => patient_view_hypertension req net r
  | OrderSelectExample => order_select_example req r
  end.

(** The cards of a response (none when nothing was sent). *)
Definition cards_of_body (b : option value) : list value :=
  match b with
  | Some (VObj fs) =>
      match lookup "cards" fs with
      | Some (VArr cards) => cards
      | _ => []
      end
  | _ => []
  end.

Definition cards (o : outcome) : list value :=
  match sent o with
  | Some w => cards_of_body (w_body w)
  | None => []
  end.

Definition field (k : string) (v : value) : value :=
  match v with
  | VObj fs => of_option (lookup k fs)
  | _ => VUndef
  end.

(** ** Stand-ins for the token library

    Used to run the middleware on examples: the token is the audience
    text and it expires at time 1000. *)

Definition toy_jwkToPem (jwk : value) : string := to_string (field "kid" jwk).

Definition toy_verify (now : Z) (token pem : string) (o : VerifyOptions)
  : result value :=
  if String.eqb token (audience o) && (now <=? 1000 + clockTolerance o)%Z
  then Ok (VObj [("aud", VStr token)])
  else Throw (JsonWebTokenError "invalid token").

(** ** Requests used as examples *)

Definition example_request (m p : string) (auth : option string) (b : value)
  : Request :=
  {| method := m;
     protocol := "https";
     host := Some "cds.example.org";
     authorization := auth;
     originalUrl := p;
     path := p;
     body := b |}.

(** The response as the CORS middleware leaves it. *)
Definition after_cors : Res := res_of (cors fresh).

(** ** Reading the challenge *)

(** The challenge names the error code [code]. *)
Definition carries_error (hdr code : string) : bool :=
  contains ("error=" ++ dq ++ code ++ dq) hdr.

(** The middleware answered 401 with this challenge and no body. *)
Definition unauthorized (o : outcome) (realm : value)
  (error description : string) : Prop :=
  exists r w,
    o = Done r /\ wire r = Some w /\ w_status w = 401%Z
    /\ header_get "WWW-Authenticate" (w_headers w)
       = Some (challenge realm error description)
    /\ w_body w = None.

(** ** Vocabulary of the statements *)

(** The body sent is an object with exactly these cards. *)
Definition responds_with (o : outcome) (cs : list value) : Prop :=
  exists w, sent o = Some w /\ w_body w = Some (VObj [("cards", VArr cs)]).

(** The reference [resourceType/id] under which a draft order is selected. *)
Definition reference (fs : list (string * value)) : string :=
  to_string (of_option (lookup "resourceType" fs)) ++ "/"
  ++ to_string (of_option (lookup "id" fs)).

Definition medication_order (fs : list (string * value)) : Prop :=
  lookup "resourceType" fs = Some (VStr "MedicationRequest")
  \/ lookup "resourceType" fs = Some (VStr "MedicationOrder").

(** The draft order has a [medicationCodeableConcept] whose [coding]
    starts with [coding0]. *)
Definition coded_medication (fs coding0 : list (string * value)) : Prop :=
  exists concept rest,
    lookup "medicationCodeableConcept" fs = Some (VObj concept)
    /\ lookup "coding" concept = Some (VArr (VObj coding0 :: rest)).

(** The body of an order-select request. *)
Definition order_select_body (entries : list value) (selections : value)
  : value :=
  VObj [("hook", VStr "order-select");
        ("context",
         VObj [("patientId", VStr "1288992");
               ("selections", selections);
               ("draftOrders",
                VObj [("resourceType", VStr "Bundle");
                      ("entry", VArr entries)])])].

Definition draft_entry (resourceType id code : string) : value :=
  VObj [("resource",
         VObj [("resourceType", VStr resourceType);
               ("id", VStr id);
               ("status", VStr "draft");
               ("medicationCodeableConcept",
                VObj [("coding",
                       VArr [VObj [("system",
                                    VStr "http://www.nlm.nih.gov/research/umls/rxnorm");
                                   ("code", VStr code)]])])])].

(** The body of a hypertension request. *)
Definition hypertension_body : value :=
  VObj [("hook", VStr "patient-view");
        ("fhirServer", VStr "https://fhir.example.org/r2");
        ("fhirAuthorization", VObj [("access_token", VStr "secret")]);
        ("context", VObj [("patientId", VStr "SMART-1288992")])].

Definition condition_entry (text : string) : value :=
  VObj [("resource",
         VObj [("resourceType", VStr "Condition");
               ("code", VObj [("text", VStr text)])])].

Definition other_entry (resourceType : string) : value :=
  VObj [("resource", VObj [("resourceType", VStr resourceType)])].

Definition bundle_of (entries : list value) : value :=
  VObj [("resourceType", VStr "Bundle"); ("entry", VArr entries)].

(** The search answered with this body. *)
Definition search_result (data : value) : settled :=
  Resolved (VObj [("status", VNum 200); ("data", data)]).


(** [bundle.entry[0].resource.resourceType] *)
Definition first_entry_type (bundle : value) : result value :=
  entry <- get bundle "entry" ;;
  entry0 <- index entry 0 ;;
  resource <- get entry0 "resource" ;;
  get resource "resourceType".

(** The first entry of what the fetcher hands over is a Condition, as the
    handler compares it. *)
Definition first_entry_is_condition (net : settled) : bool :=
  match
    (bundle <- retrieveHypertensionConditionsFhirJs net ;;
     first_entry_type bundle)
  with
  | Ok resourceType => loose_eq_str resourceType "Condition"
  | Throw _ => false
  end.

(** The body of a patient-view request with its prefetched patient. *)
Definition patient_view_body (patient : value) : value :=
  VObj [("hook", VStr "patient-view");
        ("context", VObj [("patientId", VStr "1288992")]);
        ("prefetch", VObj [("requestedPatient", patient)])].

(** A patient whose family name is a list of strings (FHIR DSTU2) ... *)
Definition patient_family_list : value :=
  VObj [("resourceType", VStr "Patient");
        ("name", VArr [VObj [("given", VArr [VStr "Tom"]);
                             ("family", VArr [VStr "Hanks"])]]);
        ("birthDate", VStr "1980-01-01")].

(** ... and one whose family name is a string (FHIR STU3 and later). *)
Definition patient_family_string : value :=
  VObj [("resourceType", VStr "Patient");
        ("name", VArr [VObj [("given", VArr [VStr "Tom"]);
                             ("family", VStr "Hanks")]]);
        ("birthDate", VStr "1980-01-01")].

(** The card names where it comes from. *)
Definition has_source (card : value) : Prop :=
  exists url,
    field "source" card
    = VObj [("label", VStr "CDS Service Tutorial"); ("url", VStr url)].

(** The body is an object holding a [cards] array of cards with a source. *)
Definition cards_body (b : option value) : Prop :=
  exists cs, b = Some (VObj [("cards", VArr cs)]) /\ Forall has_source cs.

(** What a handler cannot read: the part of the body it starts from is
    missing. *)
Definition malformed (s : service) (b : value) : Prop :=
  match s with
  | PatientViewExample => get b "prefetch" = Ok VUndef
  | PatientViewHypertension | OrderSelectExample => get b "context" = Ok VUndef
  end.

(** The five headers the CORS middleware sets. *)
Definition cors_headers : list (string * string) :=
  [("Access-Control-Allow-Origin", "https://sandbox.cds-hooks.org");
   ("Access-Control-Allow-Methods", "GET, POST, OPTIONS");
   ("Access-Control-Allow-Credentials", "true");
   ("Access-Control-Allow-Headers", "Content-Type, Authorization");
   ("Access-Control-Expose-Headers",
    "Origin, Accept, Content-Location, Location, X-Requested-With")].

(** A header list carries them all, with these values. *)
Definition has_cors (hs : list (string * string)) : Prop :=
  Forall (fun kv => header_get (fst kv) hs = Some (snd kv)) cors_headers.

(** The first element of an array. *)
Definition first (v : value) : value :=
  match v with
  | VArr (x :: _) => x
  | _ => VUndef
  end.

(** [body.cards[0].suggestions[0].actions[0].resource] of a response. *)
Definition suggested_resource (b : value) : value :=
  field "resource"
    (first (field "actions"
       (first (field "suggestions" (first (field "cards" b)))))).

(** ** The token verifier *)

(** Modelled from the spec: [jwt.verify] belongs to the jsonwebtoken
    package, which is not under src/.  Of a token the spec names the
    signing algorithm, the issuer, the audience, the expiry and the
    issued-at time. *)
Record Token : Type := {
  t_alg : string;
  t_iss : string;
  t_aud : string;
  t_exp : Z;
  t_iat : Z
}.

Definition token_payload (t : Token) : value :=
  VObj [("iss", VStr (t_iss t)); ("aud", VStr (t_aud t));
        ("exp", VNum (t_exp t)); ("iat", VNum (t_iat t))].

Section Verifier.

(** Reading the three parts of a token and checking a signature under a
    key are the work of the cryptographic library; they stay abstract. *)
Variable decode : string -> option Token.
Variable signature_ok : string -> string -> string -> bool.

(** Modelled from the spec: [jwt.verify] is not under src/.  Section 4.1:
    the signature is verified under the key, with the algorithm
    restricted to the allow-list; the issuer must be in the allow-list;
    the audience must match the expected value exactly; expiry and
    issued-at are checked with the clock-skew tolerance.  Every failure
    is an error of the library. *)
Definition spec_verify (now : Z) (token pem : string) (o : VerifyOptions)
  : result value :=
  match decode token with
  | None => Throw (JsonWebTokenError "jwt malformed")
  | Some t =>
      if negb (existsb (String.eqb (t_alg t)) (algorithms o))
      then Throw (JsonWebTokenError "invalid algorithm")
      else if negb (signature_ok (t_alg t) pem token)
      then Throw (JsonWebTokenError "invalid signature")
      else if negb (existsb (String.eqb (t_iss t)) (issuer o))
      then Throw (JsonWebTokenError "jwt issuer invalid")
      else if negb (String.eqb (t_aud t) (audience o))
      then Throw (JsonWebTokenError "jwt audience invalid")
      else if negb (now <=? t_exp t + clockTolerance o)%Z
      then Throw (JsonWebTokenError "jwt expired")
      else if negb (t_iat t <=? now + clockTolerance o)%Z
      then Throw (JsonWebTokenError "jwt issued in the future")
      else Ok (token_payload t)
  end.

End Verifier.

(** Stand-ins for the cryptographic library, to run the verifier on an
    example: one token is known, and a signature is good under the key
    whose id is the one of the program. *)
Definition toy_decode (token : string) : option Token :=
  if String.eqb token "header.payload.signature"
  then Some {| t_alg := "ES384";
               t_iss := "https://sandbox.cds-hooks.org";
               t_aud := "https://cds.example.org/cds-services/patient-view-example";
               t_exp := 1000;
               t_iat := 700 |}
  else None.

Definition toy_signature_ok (alg pem token : string) : bool :=
  String.eqb alg "ES384"
  && String.eqb pem "44823f3d-0b01-4a6c-a80e-b9d3e8a7226f".

(** ** What the client gets from a route handler *)

Inductive answer : Type :=
| Answered (code : Z)
| Unanswered.

Definition seen (r : Res) : answer :=
  match wire r with
  | Some w => Answered (w_status w)
  | None => Unanswered
  end.

(** The status of Express's default error answer: the status of the
    response when that is an error status, 500 otherwise. *)
Definition default_error_status (r : Res) : Z :=
  if (400 <=? statusCode r)%Z && (statusCode r <=? 599)%Z
  then statusCode r
  else 500%Z.

(** Express calls a route handler inside [try]/[catch]: an error the
    handler throws before it returns goes to the default error handler,
    which answers when nothing was sent yet.  Of that answer only the
    status is kept. *)
Definition caught (o : outcome) : answer :=
  match o with
  | Threw _ r =>
      match wire r with
      | Some w => Answered (w_status w)
      | None => Answered (default_error_status r)
      end
  | Next r | Done r => seen r
  end.

(** The answer to a request that reached the handler of [s].  An error
    thrown in the promise callback of the hypertension handler is thrown
    after the handler has returned: Express does not see it. *)
Definition served (s : service) (req : Request) (net : settled) (r : Res)
  : answer :=
  match s with
  | PatientViewHypertension =>
      match hypertension_begin req r with
      | (Done r', Some _) => seen (res_of (hypertension_settle net r'))
      | (o, _) => caught o
      end
  | PatientViewExample | OrderSelectExample => caught (post s req net r)
  end.

(** ** Values the model prints as JavaScript does *)



(** * Properties *)

Section StringFacts.

Lemma append_assoc (a b c : string) : (a ++ b) ++ c = a ++ (b ++ c).
Proof.
  induction a as [|x a IH]; simpl; [reflexivity | now rewrite IH].
Qed.

Lemma starts_with_append (p s : string) : starts_with p (p ++ s) = true.
Proof.
  induction p as [|x p IH]; simpl; [reflexivity |].
  now rewrite Ascii.eqb_refl, IH.
Qed.

Lemma contains_append (a p b : string) : contains p (a ++ p ++ b) = true.
Proof.
  induction a as [|x a IH].
  - simpl (EmptyString ++ _).
    destruct (p ++ b) eqn:E; simpl; rewrite <- E;
      now rewrite starts_with_append.
  - simpl. rewrite IH. apply orb_true_r.
Qed.

Lemma starts_with_nonempty (p s : string) :
  p <> EmptyString -> starts_with p s = true -> String.eqb s "" = false.
Proof.
  destruct p; [congruence |]. destruct s; simpl; [discriminate | reflexivity].
Qed.

Lemma token_of_bearer (tok : string) : token_of ("Bearer " ++ tok) = tok.
Proof. reflexivity. Qed.

Lemma challenge_carries_error (realm : value) (error description : string) :
  carries_error (challenge realm error description) error = true.
Proof.
  unfold carries_error, challenge.
  set (pat := "error=" ++ dq ++ error ++ dq).
  replace ("Bearer realm=" ++ dq ++ to_string realm ++ dq ++ ", error=" ++ dq
           ++ error ++ dq ++ ", error_description=" ++ dq ++ description
           ++ dq)
    with (("Bearer realm=" ++ dq ++ to_string realm ++ dq ++ ", ")
          ++ pat ++ (", error_description=" ++ dq ++ description ++ dq)).
  - apply contains_append.
  - unfold pat. rewrite !append_assoc. reflexivity.
Qed.

End StringFacts.

Section ResFacts.

Lemma header_get_put (k v : string) (hs : list (string * string)) :
  header_get k (header_put k v hs) = Some v.
Proof.
  induction hs as [|[k' v'] hs IH]; simpl.
  - now rewrite String.eqb_refl.
  - destruct (String.eqb k k') eqn:E; simpl; rewrite ?String.eqb_refl, ?E;
      auto.
Qed.

Lemma reject_unauthorized (realm : value) (description : string) (r : Res) :
  wire r = None ->
  unauthorized (reject realm description r) realm "invalid_token"
    description.
Proof.
  intros Hw. unfold reject, end_. simpl. rewrite Hw.
  eexists _, _. repeat split; simpl.
  apply header_get_put.
Qed.

Lemma send_unsent (v : value) (r : Res) :
  wire r = None -> send v r = Ok (freeze (Some v) r).
Proof. intros Hw. unfold send. now rewrite Hw. Qed.

End ResFacts.

(** ** The Request Gate *)

Section GateFacts.

Variable jwkToPem : value -> string.
Variable jwt_verify : Z -> string -> string -> VerifyOptions -> result value.

Let gate' := gate jwkToPem jwt_verify.

Lemma method_not_options (req : Request) :
  method req <> "OPTIONS" -> String.eqb (method req) "OPTIONS" = false.
Proof. intros H. now apply String.eqb_neq. Qed.

(** A header that starts with [Bearer] sends the request to the verifier. *)
Lemma gate_verifies (now : Z) (req : Request) (r : Res) (h : string) :
  method req <> "OPTIONS" ->
  authorization req = Some h ->
  starts_with "Bearer" h = true ->
  gate' now req r =
  match jwt_verify now (token_of h) (jwkToPem publicKey) (options_of req) with
  | Ok _ => Next r
  | Throw _ => reject (header_value (host req)) "The token is invalid." r
  end.
Proof.
  intros Hm Ha Hb. unfold gate', gate.
  rewrite (method_not_options _ Hm), Ha.
  cbn [header_value truthy to_string].
  rewrite (starts_with_nonempty "Bearer" h), Hb; [reflexivity | discriminate
                                                 | assumption].
Qed.

(** No header, an empty one, or one that does not start with [Bearer]:
    the first 401 of the middleware. *)
Lemma gate_no_bearer (now : Z) (req : Request) (r : Res) :
  method req <> "OPTIONS" ->
  (authorization req = None
   \/ exists h, authorization req = Some h /\ starts_with "Bearer" h = false) ->
  gate' now req r
  = reject (header_value (host req)) "No Bearer token provided." r.
Proof.
  intros Hm Ha. unfold gate', gate. rewrite (method_not_options _ Hm).
  destruct Ha as [Ha | (h & Ha & Hb)]; rewrite Ha;
    cbn [header_value truthy to_string].
  - reflexivity.
  - rewrite Hb. cbn [negb]. now rewrite orb_true_r.
Qed.

Lemma reject_is_not_next (realm : value) (d : string) (r r' : Res) :
  reject realm d r <> Next r'.
Proof. unfold reject. discriminate. Qed.

End GateFacts.

Section VerifierFacts.

Variable decode : string -> option Token.
Variable signature_ok : string -> string -> string -> bool.

Lemma one_of (a : string) (l : list string) :
  existsb (String.eqb a) l = true <-> In a l.
Proof.
  rewrite existsb_exists. split.
  - intros (x & Hin & E). apply String.eqb_eq in E. now subst.
  - intros H. exists a. split; [assumption | apply String.eqb_refl].
Qed.

(** The verifier accepts exactly the tokens that pass its six checks. *)
Lemma spec_verify_accepts (now : Z) (token pem : string) (o : VerifyOptions) :
  (exists decoded,
      spec_verify decode signature_ok now token pem o = Ok decoded)
  <-> exists t,
        decode token = Some t
        /\ In (t_alg t) (algorithms o)
        /\ signature_ok (t_alg t) pem token = true
        /\ In (t_iss t) (issuer o)
        /\ t_aud t = audience o
        /\ (now <= t_exp t + clockTolerance o)%Z
        /\ (t_iat t <= now + clockTolerance o)%Z.
Proof.
  unfold spec_verify. split.
  - intros [d H]. destruct (decode token) as [t |]; [| discriminate].
    destruct (existsb (String.eqb (t_alg t)) (algorithms o)) eqn:Ea;
      cbn [negb] in H; [| discriminate].
    destruct (signature_ok (t_alg t) pem token) eqn:Es;
      cbn [negb] in H; [| discriminate].
    destruct (existsb (String.eqb (t_iss t)) (issuer o)) eqn:Ei;
      cbn [negb] in H; [| discriminate].
    destruct (String.eqb (t_aud t) (audience o)) eqn:Eu;
      cbn [negb] in H; [| discriminate].
    destruct (now <=? t_exp t + clockTolerance o)%Z eqn:Ee;
      cbn [negb] in H; [| discriminate].
    destruct (t_iat t <=? now + clockTolerance o)%Z eqn:Et;
      cbn [negb] in H; [| discriminate].
    exists t.
    split; [reflexivity |]. split; [now apply one_of |].
    split; [exact Es |]. split; [now apply one_of |].
    split; [now apply String.eqb_eq |].
    split; now apply Z.leb_le.
  - intros (t & Hd & Ha & Hs & Hi & Hu & He & Ht). rewrite Hd.
    apply one_of in Ha. apply one_of in Hi.
    apply String.eqb_eq in Hu. apply Z.leb_le in He. apply Z.leb_le in Ht.
    rewrite Ha, Hs, Hi, Hu, He, Ht. cbn [negb]. eauto.
Qed.

End VerifierFacts.

(** C1. A request that is not OPTIONS and carries [Bearer <token>] passes
    the gate exactly when the token is signed, with ES384 or RS384, under
    the public key written in the program, its issuer is
    [https://sandbox.cds-hooks.org], its audience is the URL of the
    request ([protocol://host+originalUrl]), it has not expired more than
    300 seconds ago and it was not issued more than 300 seconds ahead;
    every other token is answered with a 401 without body whose challenge
    names the host as realm and carries the error code [invalid_token].
    The verifier is the one of the spec; reading a token and checking a
    signature stay abstract. *)
Theorem gate_bearer_token
  (jwkToPem : value -> string)
  (decode : string -> option Token)
  (signature_ok : string -> string -> string -> bool)
  (now : Z) (req : Request) (r : Res) (tok : string) :
  method req <> "OPTIONS" ->
  authorization req = Some ("Bearer " ++ tok) ->
  wire r = None ->
  let pem :=
    jwkToPem
      (VObj [("kty", VStr "EC");
             ("use", VStr "sig");
             ("crv", VStr "P-384");
             ("kid", VStr "44823f3d-0b01-4a6c-a80e-b9d3e8a7226f");
             ("x", VStr "dw_JGR8nB2I6XveNxUOl2qk699ZPLM2nYI5STSdiEl9avAkrm3CkfYMbrrjr8laB");
             ("y", VStr "Sm3mLE-n1zYNla_aiE3cb3nZsL51RbC7ysw3q8aJLxGm-hx79RPMYpITDjp7kgzy");
             ("alg", VStr "ES384")]) in
  let url :=
    protocol req ++ "://" ++ to_string (header_value (host req))
    ++ originalUrl req in
  let valid :=
    exists t,
      decode tok = Some t
      /\ (t_alg t = "ES384" \/ t_alg t = "RS384")
      /\ signature_ok (t_alg t) pem tok = true
      /\ t_iss t = "https://sandbox.cds-hooks.org"
      /\ t_aud t = url
      /\ (now <= t_exp t + 300)%Z
      /\ (t_iat t <= now + 300)%Z in
  let o := gate jwkToPem (spec_verify decode signature_ok) now req r in
  (o = Next r <-> valid)
  /\ (~ valid ->
      unauthorized o (header_value (host req)) "invalid_token"
        "The token is invalid."
      /\ carries_error
           (challenge (header_value (host req)) "invalid_token"
              "The token is invalid.") "invalid_token" = true).
Proof.
  intros Hm Ha Hw pem url valid o.
  set (verdict := spec_verify decode signature_ok now tok pem
                    {| algorithms := ["ES384"; "RS384"];
                       audience := url;
                       issuer := ["https://sandbox.cds-hooks.org"];
                       clockTolerance := 300 |}).
  assert (Ho : o = match verdict with
                   | Ok _ => Next r
                   | Throw _ =>
                       reject (header_value (host req))
                         "The token is invalid." r
                   end).
  { unfold o. rewrite (gate_verifies _ _ now req r _ Hm Ha eq_refl).
    rewrite token_of_bearer. reflexivity. }
  assert (Hv : valid <-> exists decoded, verdict = Ok decoded).
  { unfold verdict. rewrite spec_verify_accepts. unfold valid.
    cbn [algorithms audience issuer clockTolerance In].
    split; intros (t & H1 & H2 & H3 & H4 & H5 & H6 & H7); exists t;
      repeat split; try assumption.
    - destruct H2 as [<- | <-]; auto.
    - now left.
    - destruct H2 as [<- | [<- | []]]; auto.
    - destruct H4 as [<- | []]. reflexivity. }
  rewrite Ho. split.
  - rewrite Hv. destruct verdict as [d | e]; split.
    + intros _. now exists d.
    + reflexivity.
    + intros H. now apply reject_is_not_next in H.
    + intros [d H]. discriminate H.
  - intros Hno. destruct verdict as [d | e].
    + elim Hno. apply Hv. now exists d.
    + split; [now apply reject_unauthorized | apply challenge_carries_error].
Qed.

(** The gate run on the token the stand-ins know, 100 seconds before it
    expires. *)
Lemma gate_bearer_token_witness :
  gate toy_jwkToPem (spec_verify toy_decode toy_signature_ok) 900
    (example_request "POST" "/cds-services/patient-view-example"
       (Some "Bearer header.payload.signature") VNull)
    after_cors
  = Next after_cors.
Proof.
  apply (gate_bearer_token toy_jwkToPem toy_decode toy_signature_ok 900
           (example_request "POST" "/cds-services/patient-view-example"
              (Some "Bearer header.payload.signature") VNull)
           after_cors "header.payload.signature").
  - discriminate.
  - reflexivity.
  - reflexivity.
  - eexists. split; [reflexivity |].
    split; [left; reflexivity |].
    split; [reflexivity |].
    split; [reflexivity |].
    split; [reflexivity |].
    split; intros E; discriminate E.
Defined.

(** C2, as stated, fails: a request without Authorization header is
    answered with a challenge whose error code is [invalid_token]; the
    code [missing_token] does not occur in it. *)
Lemma gate_missing_header_not_missing_token :
  let req := example_request "POST" "/cds-services/order-select-example"
               None VNull in
  exists w hdr,
    sent (gate toy_jwkToPem toy_verify 900 req after_cors) = Some w
    /\ w_status w = 401%Z
    /\ header_get "WWW-Authenticate" (w_headers w) = Some hdr
    /\ carries_error hdr "missing_token" = false
    /\ contains "missing_token" hdr = false
    /\ carries_error hdr "invalid_token" = true.
Proof.
  eexists _, _. vm_compute. repeat split.
Qed.

(** C2, amended.  A request that is not OPTIONS and whose Authorization
    header is absent, empty or does not start with [Bearer] is answered
    with a 401 without body; the challenge names the request host as
    realm, the error code [invalid_token] and the description
    [No Bearer token provided.].  A header that starts with [Bearer] is
    not refused at this point: what follows the first [Bearer ] (the whole
    header when there is none) goes to the verifier. *)
Theorem gate_no_bearer_header
  (jwkToPem : value -> string)
  (jwt_verify : Z -> string -> string -> VerifyOptions -> result value)
  (now : Z) (req : Request) (r : Res) :
  method req <> "OPTIONS" ->
  wire r = None ->
  let o := gate jwkToPem jwt_verify now req r in
  ((authorization req = None
    \/ exists h, authorization req = Some h /\ starts_with "Bearer" h = false) ->
   unauthorized o (header_value (host req)) "invalid_token"
     "No Bearer token provided."
   /\ carries_error
        (challenge (header_value (host req)) "invalid_token"
           "No Bearer token provided.") "invalid_token" = true)
  /\ (forall h,
        authorization req = Some h -> starts_with "Bearer" h = true ->
        o = match
              jwt_verify now (replace "Bearer " "" h) (jwkToPem publicKey)
                (options_of req)
            with
            | Ok _ => Next r
            | Throw _ =>
                reject (header_value (host req)) "The token is invalid." r
            end).
Proof.
  intros Hm Hw o. split.
  - intros Ha. unfold o. rewrite (gate_no_bearer _ _ now req r Hm Ha).
    split; [now apply reject_unauthorized | apply challenge_carries_error].
  - intros h Ha Hb. unfold o. now rewrite (gate_verifies _ _ now req r h Hm Ha Hb).
Qed.

(** The gate run on a request with a Basic credential. *)
Lemma gate_no_bearer_header_witness :
  unauthorized
    (gate toy_jwkToPem toy_verify 900
       (example_request "GET" "/cds-services" (Some "Basic dXNlcjpwdw==") VNull)
       after_cors)
    (VStr "cds.example.org") "invalid_token" "No Bearer token provided.".
Proof.
  apply (gate_no_bearer_header toy_jwkToPem toy_verify 900
           (example_request "GET" "/cds-services" (Some "Basic dXNlcjpwdw==")
              VNull)
           after_cors).
  - discriminate.
  - reflexivity.
  - right. eexists. split; reflexivity.
Defined.

(** ** Reading values *)

Section ValueFacts.

Lemma strict_eq_str_true (v : value) (s : string) :
  strict_eq_str v s = true <-> v = VStr s.
Proof.
  destruct v; simpl; split; try discriminate; intros H.
  - apply String.eqb_eq in H. now subst.
  - injection H as ->. apply String.eqb_refl.
Qed.

Lemma strict_eq_str_false (v : value) (s : string) :
  strict_eq_str v s = false <-> v <> VStr s.
Proof.
  split.
  - intros H E. apply strict_eq_str_true in E. congruence.
  - intros H. destruct (strict_eq_str v s) eqn:E; [| reflexivity].
    apply strict_eq_str_true in E. contradiction.
Qed.

Lemma includes_array (l : list value) (s : string) :
  includes (VArr l) s = Ok true <-> In (VStr s) l.
Proof.
  simpl. split.
  - intros H. injection H as H. apply existsb_exists in H.
    destruct H as (x & Hin & Hx). apply strict_eq_str_true in Hx. now subst.
  - intros H. f_equal. apply existsb_exists. exists (VStr s). split; auto.
    now apply strict_eq_str_true.
Qed.

Lemma includes_array_false (l : list value) (s : string) :
  ~ In (VStr s) l -> includes (VArr l) s = Ok false.
Proof.
  intros H. simpl. f_equal.
  destruct (existsb (fun x => strict_eq_str x s) l) eqn:E; [| reflexivity].
  exfalso. apply H. now apply includes_array; simpl; rewrite E.
Qed.

Lemma lookup_assign_same (k : string) (v : value) (fs : list (string * value)) :
  lookup k (assign k v fs) = Some v.
Proof.
  induction fs as [|[k' v'] fs IH]; simpl.
  - now rewrite String.eqb_refl.
  - destruct (String.eqb k k') eqn:E; simpl; rewrite ?String.eqb_refl, ?E;
      auto.
Qed.

Lemma lookup_assign_other (k k' : string) (v : value)
  (fs : list (string * value)) :
  k' <> k -> lookup k' (assign k v fs) = lookup k' fs.
Proof.
  intros Hne. induction fs as [|[k0 v0] fs IH]; simpl.
  - apply String.eqb_neq in Hne. now rewrite Hne.
  - destruct (String.eqb k k0) eqn:E; simpl.
    + apply String.eqb_eq in E. subst k0.
      apply String.eqb_neq in Hne. now rewrite Hne.
    + now rewrite IH.
Qed.

Lemma reply_unsent (v : value) (r : Res) (after : Res -> Res) :
  wire r = None -> reply v r after = Done (after (freeze (Some v) r)).
Proof. intros Hw. unfold reply. now rewrite send_unsent. Qed.

End ValueFacts.

(** ** Order Select *)

Section OrderSelectFacts.

Lemma decision_not_selected (fs : list (string * value)) (sels : list value) :
  ~ In (VStr (reference fs)) sels ->
  order_select_decision (VObj fs) (VArr sels) = Ok None.
Proof.
  intros Hsel. unfold order_select_decision. cbn [get bind].
  destruct (strict_eq_str (of_option (lookup "resourceType" fs))
              "MedicationRequest"
            || strict_eq_str (of_option (lookup "resourceType" fs))
                 "MedicationOrder"); [| reflexivity].
  fold (reference fs). now rewrite (includes_array_false _ _ Hsel).
Qed.

Lemma decision_selected (fs coding0 : list (string * value))
  (sels : list value) :
  medication_order fs ->
  In (VStr (reference fs)) sels ->
  coded_medication fs coding0 ->
  order_select_decision (VObj fs) (VArr sels)
  = (responseCard <- createMedicationResponseCard (VObj fs) ;;
     Ok (Some responseCard)).
Proof.
  intros Hrt Hsel (concept & rest & Hc & _).
  unfold order_select_decision. cbn [get bind].
  assert (Hty : strict_eq_str (of_option (lookup "resourceType" fs))
                  "MedicationRequest"
                || strict_eq_str (of_option (lookup "resourceType" fs))
                     "MedicationOrder" = true).
  { destruct Hrt as [H | H]; rewrite H; reflexivity. }
  rewrite Hty. fold (reference fs).
  apply includes_array in Hsel. rewrite Hsel. cbn [bind].
  rewrite Hc. reflexivity.
Qed.

Lemma card_for_target (fs coding0 : list (string * value)) :
  coded_medication fs coding0 ->
  lookup "code" coding0 = Some (VStr "243670") ->
  createMedicationResponseCard (VObj fs)
  = Ok (VObj [("cards", VArr [
      VObj [("summary", VStr "Currently prescribing a low-dose Aspirin");
            ("indicator", VStr "info");
            ("source", order_select_source)]])]).
Proof.
  intros (concept & rest & Hc & Hcoding) Hcode.
  unfold createMedicationResponseCard. cbn [get bind].
  rewrite Hc. cbn [of_option get bind]. rewrite Hcoding.
  cbn [of_option index nth get bind]. rewrite Hcode. reflexivity.
Qed.

Lemma card_for_other (fs coding0 : list (string * value)) :
  coded_medication fs coding0 ->
  lookup "code" coding0 <> Some (VStr "243670") ->
  createMedicationResponseCard (VObj fs)
  = Ok (VObj [("cards", VArr [
      VObj [("summary",
             VStr "Reduce cardiovascular risks, prescribe daily 81 MG Aspirin");
            ("indicator", VStr "warning");
            ("suggestions", VArr [
               VObj [("label", VStr "Switch to low-dose Aspirin");
                     ("actions", VArr [
                        VObj [("type", VStr "create");
                              ("description",
                               VStr "Modifying existing medication order to be Aspirin");
                              ("resource",
                               VObj (assign "medicationCodeableConcept"
                                       aspirin_concept fs))]])]]);
            ("source", order_select_source)]])]).
Proof.
  intros (concept & rest & Hc & Hcoding) Hcode.
  unfold createMedicationResponseCard. cbn [get bind].
  rewrite Hc. cbn [of_option get bind]. rewrite Hcoding.
  cbn [of_option index nth get bind].
  assert (Hne : strict_eq_str (of_option (lookup "code" coding0)) "243670"
                = false).
  { apply strict_eq_str_false. intros E. apply Hcode.
    destruct (lookup "code" coding0); simpl in E; congruence. }
  rewrite Hne. reflexivity.
Qed.

End OrderSelectFacts.

(** C3.  What the order-select handler does with a draft order: with the
    preconditions met and the medication coded 243670 it sends one info
    card without suggestions; with another code it sends one warning card
    with a single suggestion whose only action carries the draft order
    with its medication replaced by the Aspirin coding; when the reference
    of the draft order is not among the selections it sends nothing at
    all: it records status 200 and returns. *)
Theorem order_select_cards
  (req : Request) (r : Res) (fs : list (string * value)) (sels : list value) :
  wire r = None ->
  draftOrder_of (body req) = Ok (VObj fs) ->
  selections_of (body req) = Ok (VArr sels) ->
  let o := order_select_example req r in
  (forall coding0,
      medication_order fs ->
      In (VStr (reference fs)) sels ->
      coded_medication fs coding0 ->
      (lookup "code" coding0 = Some (VStr "243670") ->
       exists card,
         responds_with o [card]
         /\ field "indicator" card = VStr "info"
         /\ field "suggestions" card = VUndef)
      /\ (lookup "code" coding0 <> Some (VStr "243670") ->
          exists card suggestion action,
            responds_with o [card]
            /\ field "indicator" card = VStr "warning"
            /\ field "suggestions" card = VArr [suggestion]
            /\ field "actions" suggestion = VArr [action]
            /\ field "resource" action
               = VObj (assign "medicationCodeableConcept" aspirin_concept fs)
            /\ field "coding"
                 (field "medicationCodeableConcept" (field "resource" action))
               = VArr [VObj [("display", VStr "Aspirin 81 MG Oral Tablet");
                             ("system",
                              VStr "http://www.nlm.nih.gov/research/umls/rxnorm");
                             ("code", VStr "243670")]]))
  /\ (~ In (VStr (reference fs)) sels ->
      o = Done (status 200 r) /\ sent o = None /\ cards o = []).
Proof.
  intros Hw Hd Hs o.
  assert (Ho : o = match order_select_decision (VObj fs) (VArr sels) with
                   | Ok (Some responseCard) => reply responseCard r (status 200)
                   | Ok None => Done (status 200 r)
                   | Throw e => Threw e r
                   end).
  { unfold o, order_select_example, orderSelectCard. now rewrite Hd, Hs. }
  split.
  - intros coding0 Hrt Hsel Hcoded.
    rewrite (decision_selected fs coding0 sels Hrt Hsel Hcoded) in Ho.
    split; intros Hcode.
    + rewrite (card_for_target fs coding0 Hcoded Hcode) in Ho.
      cbn [bind] in Ho. rewrite (reply_unsent _ _ _ Hw) in Ho.
      eexists. split; [| split].
      * rewrite Ho. eexists. split; reflexivity.
      * reflexivity.
      * reflexivity.
    + rewrite (card_for_other fs coding0 Hcoded Hcode) in Ho.
      cbn [bind] in Ho. rewrite (reply_unsent _ _ _ Hw) in Ho.
      eexists _, _, _.
      split; [rewrite Ho; eexists; split; reflexivity |].
      do 4 (split; [reflexivity |]).
      change (field "coding"
                (field "medicationCodeableConcept"
                   (VObj (assign "medicationCodeableConcept" aspirin_concept
                            fs)))
              = field "coding" aspirin_concept).
      cbn [field]. now rewrite lookup_assign_same.
  - intros Hsel. rewrite (decision_not_selected fs sels Hsel) in Ho.
    rewrite Ho. unfold cards, sent. cbn [res_of status wire].
    rewrite Hw. repeat split.
Qed.

(** The handler run on a draft order that is not selected. *)
Lemma order_select_cards_witness :
  sent
    (order_select_example
       (example_request "POST" "/cds-services/order-select-example" None
          (order_select_body
             [draft_entry "MedicationRequest" "smart-123" "11111"]
             (VArr [VStr "MedicationRequest/smart-456"])))
       after_cors)
  = None.
Proof.
  destruct
    (order_select_cards
       (example_request "POST" "/cds-services/order-select-example" None
          (order_select_body
             [draft_entry "MedicationRequest" "smart-123" "11111"]
             (VArr [VStr "MedicationRequest/smart-456"])))
       after_cors _ _ eq_refl eq_refl eq_refl) as [_ H].
  apply H. simpl. intros [E | []]. discriminate E.
Defined.

(** ** Hypertension *)

Section HypertensionFacts.

Lemma cards_unsent (r : Res) :
  wire r = None ->
  cards (Done r) = [] /\ forall e, cards (Threw e r) = [].
Proof. intros Hw. unfold cards, sent. simpl. now rewrite Hw. Qed.

Lemma get_total (v : value) (k k' : string) (x : value) :
  get v k = Ok x -> exists y, get v k' = Ok y.
Proof. destruct v; simpl; try discriminate; eauto. Qed.

Lemma get_truthy (v : value) (k : string) :
  truthy v = true -> exists y, get v k = Ok y.
Proof. destruct v; simpl; try discriminate; eauto. Qed.

Lemma fhirjs_call_total (fhirServer patientId fhirAuthorization : value) :
  exists call,
    fhirjs_call fhirServer patientId fhirAuthorization = Ok call.
Proof.
  unfold fhirjs_call.
  destruct (truthy fhirAuthorization) eqn:E.
  - destruct (get_truthy fhirAuthorization "access_token" E) as [y Hy].
    rewrite Hy. cbn [bind]. eauto.
  - cbn [bind]. eauto.
Qed.

(** The synchronous part sends nothing: it throws before the search is
    issued, or it issues the search and records status 200. *)
Lemma hypertension_begin_cases (req : Request) (r : Res) :
  (exists e, hypertension_begin req r = (Threw e r, None))
  \/ (exists call, hypertension_begin req r = (Done (status 200 r), Some call)).
Proof.
  unfold hypertension_begin.
  destruct (get (body req) "fhirServer") as [fhirServer | e]; cbn [bind];
    [| left; eauto].
  destruct (get (body req) "context") as [context | e]; cbn [bind];
    [| left; eauto].
  destruct (get context "patientId") as [patientId | e]; cbn [bind];
    [| left; eauto].
  destruct (get (body req) "fhirAuthorization") as [fhirAuthorization | e];
    cbn [bind]; [| left; eauto].
  destruct (fhirjs_call_total fhirServer patientId fhirAuthorization)
    as [call Hc].
  rewrite Hc. right. eauto.
Qed.

Lemma hypertension_begin_ok (req : Request) (r : Res)
  (ctx : list (string * value)) :
  get (body req) "context" = Ok (VObj ctx) ->
  exists call, hypertension_begin req r = (Done (status 200 r), Some call).
Proof.
  intros Hctx. unfold hypertension_begin.
  destruct (get_total _ _ "fhirServer" _ Hctx) as [x Hx].
  destruct (get_total _ _ "fhirAuthorization" _ Hctx) as [y Hy].
  rewrite Hx, Hctx, Hy. cbn [bind get].
  destruct (fhirjs_call_total x (of_option (lookup "patientId" ctx)) y)
    as [call Hc].
  rewrite Hc. eauto.
Qed.

Lemma hypertension_runs (req : Request) (net : settled) (r : Res) :
  (exists e, patient_view_hypertension req net r = Threw e r)
  \/ patient_view_hypertension req net r
     = hypertension_settle net (status 200 r).
Proof.
  unfold patient_view_hypertension.
  destruct (hypertension_begin_cases req r) as [[e H] | [call H]]; rewrite H;
    eauto.
Qed.

(** No card unless the first entry compares equal to [Condition]. *)
Lemma card_needs_first_condition (bundle body : value) :
  patientHypertensionCard bundle = Ok (Some body) ->
  exists resourceType,
    first_entry_type bundle = Ok resourceType
    /\ loose_eq_str resourceType "Condition" = true.
Proof.
  unfold patientHypertensionCard, first_entry_type.
  destruct (get bundle "entry") as [entry | e]; cbn [bind]; [| discriminate].
  destruct (truthy entry); [| discriminate].
  destruct (get entry "length") as [len | e]; cbn [bind]; [| discriminate].
  destruct (truthy len); [| discriminate].
  destruct (index entry 0) as [entry0 | e]; cbn [bind]; [| discriminate].
  destruct (get entry0 "resource") as [resource | e]; cbn [bind];
    [| discriminate].
  destruct (get resource "resourceType") as [resourceType | e]; cbn [bind];
    [| discriminate].
  destruct (loose_eq_str resourceType "Condition") eqn:E; [| discriminate].
  intros _. eauto.
Qed.

Lemma settle_without_condition (net : settled) (r : Res) :
  wire r = None ->
  first_entry_is_condition net = false ->
  sent (hypertension_settle net r) = None.
Proof.
  intros Hw Hf. unfold hypertension_settle, first_entry_is_condition in *.
  destruct (retrieveHypertensionConditionsFhirJs net) as [bundle | e];
    cbn [bind] in *; [| exact Hw].
  destruct (patientHypertensionCard bundle) as [[card |] | e] eqn:E;
    try exact Hw.
  destruct (card_needs_first_condition _ _ E) as (t & Ht & Hc).
  rewrite Ht in Hf. congruence.
Qed.

End HypertensionFacts.




(** C5.  The synchronous part of the hypertension handler sends nothing,
    so no response leaves before the search has settled; but when the
    settled search yields no card (first entry missing or not a Condition,
    or a failed search) the handler never sends a response at all: status
    200 is recorded on a response that stays open. *)
Theorem hypertension_response_timing
  (req : Request) (net : settled) (r : Res) :
  wire r = None ->
  sent (fst (hypertension_begin req r)) = None
  /\ (first_entry_is_condition net = false ->
      sent (patient_view_hypertension req net r) = None).
Proof.
  intros Hw. split.
  - destruct (hypertension_begin_cases req r) as [[e H] | [call H]];
      rewrite H; exact Hw.
  - intros Hf.
    destruct (hypertension_runs req net r) as [[e H] | H]; rewrite H.
    + exact Hw.
    + now apply settle_without_condition.
Qed.

(** The handler run on a search that returns an empty bundle: the request
    is well formed, the search succeeds, and no response is sent. *)
Lemma hypertension_response_timing_witness :
  sent
    (patient_view_hypertension
       (example_request "POST" "/cds-services/patient-view-hypertension"
          None hypertension_body)
       (search_result (bundle_of []))
       after_cors)
  = None.
Proof.
  apply (hypertension_response_timing
           (example_request "POST" "/cds-services/patient-view-hypertension"
              None hypertension_body)
           (search_result (bundle_of []))
           after_cors eq_refl).
  reflexivity.
Defined.

(** ** The fetchers *)

(** C6.  The axios variant hands over the body only when its resource
    type is [Bundle] and nothing otherwise, and both variants swallow a
    failed search; but the fhir.js variant, the one the handler calls,
    hands over the body of every successful search, whatever its resource
    type. *)
Theorem fetcher_results :
  (forall s, exists v,
      retrieveHypertensionConditionsAxios s = Ok v
      /\ (v = VUndef
          \/ exists res, s = Resolved res /\ get res "data" = Ok v
                         /\ get v "resourceType" = Ok (VStr "Bundle")))
  /\ (forall reason,
         retrieveHypertensionConditionsAxios (Rejected reason) = Ok VUndef)
  /\ (forall reason,
         reason <> VUndef -> reason <> VNull ->
         retrieveHypertensionConditionsFhirJs (Rejected reason) = Ok VUndef)
  /\ (forall res data,
         get res "data" = Ok data ->
         retrieveHypertensionConditionsFhirJs (Resolved res) = Ok data)
  /\ (let outcome := VObj [("resourceType", VStr "OperationOutcome")] in
      retrieveHypertensionConditionsFhirJs (search_result outcome)
      = Ok outcome
      /\ retrieveHypertensionConditionsAxios (search_result outcome)
         = Ok VUndef).
Proof.
  split; [| split; [| split; [| split]]].
  - intros [res | reason]; cbn [retrieveHypertensionConditionsAxios];
      [| eauto].
    destruct (get res "data") as [data | e] eqn:Hd; cbn [bind]; [| eauto].
    destruct (truthy data) eqn:Ht; [| eauto].
    destruct (get_truthy data "resourceType" Ht) as [t Hty].
    rewrite Hty. cbn [bind].
    destruct (truthy t && strict_eq_str t "Bundle") eqn:E; [| eauto].
    apply andb_true_iff in E. destruct E as [_ E].
    apply strict_eq_str_true in E. subst t.
    exists data. split; [reflexivity |]. right. exists res. auto.
  - reflexivity.
  - intros reason H1 H2. destruct reason; try reflexivity; congruence.
  - intros res data H. cbn [retrieveHypertensionConditionsFhirJs].
    now rewrite H.
  - split; reflexivity.
Qed.

(** The fhir.js variant run on a failed search. *)
Lemma fetcher_results_witness :
  retrieveHypertensionConditionsFhirJs
    (Rejected (VObj [("message", VStr "timeout of 2000ms exceeded")]))
  = Ok VUndef.
Proof.
  destruct fetcher_results as (_ & _ & H & _).
  apply H; discriminate.
Defined.

(** ** Patient View *)

(** C8.  The handler at the failing input: for a patient named Tom Hanks
    whose family name is a string (FHIR STU3 and later), the summary ends
    with the first letter of the family name, although the handler means
    to show the first and the last name. *)
Lemma patient_view_family_string :
  exists card,
    responds_with
      (patient_view_example
         (example_request "POST" "/cds-services/patient-view-example" None
            (patient_view_body patient_family_string))
         after_cors)
      [card]
    /\ field "summary" card = VStr "Now seeing: Tom H"
    /\ field "summary" card <> VStr "Now seeing: Tom Hanks".
Proof.
  eexists. split; [eexists; split; vm_compute; reflexivity |].
  split; [reflexivity | discriminate].
Qed.

(** Where the greeting is as C8 says: for a patient-view request whose
    prefetched patient has,
    in its first name, a given list starting with Tom and a family list
    starting with Hanks, and the birth date 1980-01-01, the response has
    exactly one card; its summary is [Now seeing: Tom Hanks], its detail
    contains the birth date, and it carries two links, an absolute one and
    a SMART launch link. *)
Theorem patient_view_greeting
  (req : Request) (r : Res)
  (patient name0 : list (string * value)) (names givens families : list value) :
  wire r = None ->
  requestedPatient_of (body req) = Ok (VObj patient) ->
  lookup "name" patient = Some (VArr (VObj name0 :: names)) ->
  lookup "given" name0 = Some (VArr (VStr "Tom" :: givens)) ->
  lookup "family" name0 = Some (VArr (VStr "Hanks" :: families)) ->
  lookup "birthDate" patient = Some (VStr "1980-01-01") ->
  exists card detail link1 link2,
    responds_with (patient_view_example req r) [card]
    /\ field "summary" card = VStr "Now seeing: Tom Hanks"
    /\ field "detail" card = VStr detail
    /\ contains "1980-01-01" detail = true
    /\ has_source card
    /\ field "links" card = VArr [link1; link2]
    /\ field "type" link1 = VStr "absolute"
    /\ field "type" link2 = VStr "smart".
Proof.
  intros Hw Hp Hname Hgiven Hfamily Hbirth.
  unfold patient_view_example. rewrite Hp. cbn [bind].
  unfold patientViewCard. cbn [get bind]. rewrite Hname.
  cbn [of_option index nth get bind]. rewrite Hgiven, Hfamily.
  cbn [of_option index nth bind]. rewrite Hbirth. cbn [of_option to_string].
  rewrite reply_unsent by exact Hw.
  eexists _, _, _, _.
  split; [eexists; split; reflexivity |].
  split; [reflexivity |]. split; [reflexivity |]. split; [reflexivity |].
  split; [eexists; reflexivity |].
  split; [reflexivity |]. split; reflexivity.
Qed.

(** The handler run on a patient whose family name is a list. *)
Lemma patient_view_greeting_witness :
  exists card,
    responds_with
      (patient_view_example
         (example_request "POST" "/cds-services/patient-view-example" None
            (patient_view_body patient_family_list))
         after_cors)
      [card]
    /\ field "summary" card = VStr "Now seeing: Tom Hanks".
Proof.
  destruct
    (patient_view_greeting
       (example_request "POST" "/cds-services/patient-view-example" None
          (patient_view_body patient_family_list))
       after_cors _ _ _ _ _ eq_refl eq_refl eq_refl eq_refl eq_refl eq_refl)
    as (card & detail & link1 & link2 & H1 & H2 & _).
  exists card. split; assumption.
Defined.

(** ** The bodies the handlers send *)

Section BodyFacts.

Ltac bind_cases :=
  repeat match goal with
         | |- context [bind ?m _] =>
             destruct m; cbn [bind]; try discriminate
         | |- context [if ?b then _ else _] =>
             destruct b; try discriminate
         end.

Ltac one_card :=
  let H := fresh in
  intros H; injection H as <-;
  eexists; split;
  [reflexivity | repeat constructor; eexists; reflexivity].

Lemma bind_ok {A B} (m : result A) (k : A -> result B) (b : B) :
  bind m k = Ok b -> exists a, m = Ok a /\ k a = Ok b.
Proof. destruct m; simpl; [eauto | discriminate]. Qed.

Lemma patientViewCard_body (patientResource v : value) :
  patientViewCard patientResource = Ok v -> cards_body (Some v).
Proof. unfold patientViewCard. bind_cases. one_card. Qed.

Lemma patientHypertensionCard_body (conditionsBundle v : value) :
  patientHypertensionCard conditionsBundle = Ok (Some v) ->
  cards_body (Some v).
Proof. unfold patientHypertensionCard. bind_cases. one_card. Qed.

Lemma createMedicationResponseCard_body (context v : value) :
  createMedicationResponseCard context = Ok v -> cards_body (Some v).
Proof. unfold createMedicationResponseCard. bind_cases; one_card. Qed.

Lemma order_select_decision_body (draftOrder selections v : value) :
  order_select_decision draftOrder selections = Ok (Some v) ->
  cards_body (Some v).
Proof.
  unfold order_select_decision.
  destruct (get draftOrder "resourceType") as [t | e]; cbn [bind];
    [| discriminate].
  destruct (strict_eq_str t "MedicationRequest"
            || strict_eq_str t "MedicationOrder"); [| discriminate].
  destruct (get draftOrder "id") as [id | e]; cbn [bind]; [| discriminate].
  destruct (includes selections (to_string t ++ "/" ++ to_string id))
    as [[|] | e]; cbn [bind]; try discriminate.
  destruct (get draftOrder "medicationCodeableConcept") as [c | e];
    cbn [bind]; [| discriminate].
  destruct (truthy c); [| discriminate].
  destruct (createMedicationResponseCard draftOrder) as [card | e] eqn:E;
    cbn [bind]; [| discriminate].
  intros H. injection H as <-.
  now apply createMedicationResponseCard_body with (context := draftOrder).
Qed.

Lemma sent_reply (v : value) (r : Res) (after : Res -> Res) (w : Wire) :
  wire r = None ->
  (forall r', wire (after r') = wire r') ->
  sent (reply v r after) = Some w ->
  w = {| w_status := statusCode r; w_headers := headers r;
         w_body := Some v |}.
Proof.
  intros Hw Hafter. rewrite reply_unsent by exact Hw.
  unfold sent. cbn [res_of]. rewrite Hafter. cbn [freeze wire].
  intros H. now injection H as <-.
Qed.

(** What a POST handler sends, when it sends: the status the response had
    when the handler started or 200, the headers it had, and a body of
    cards. *)
Lemma post_sent (s : service) (req : Request) (net : settled) (r : Res)
  (w : Wire) :
  wire r = None ->
  sent (post s req net r) = Some w ->
  (w_status w = statusCode r \/ w_status w = 200%Z)
  /\ w_headers w = headers r
  /\ cards_body (w_body w).
Proof.
  intros Hw. destruct s; cbn [post].
  - unfold patient_view_example.
    destruct (patientResource <- requestedPatient_of (body req) ;;
              patientViewCard patientResource) as [card | e] eqn:E.
    + intros H. apply sent_reply in H; [| exact Hw | reflexivity].
      subst w. cbn. apply bind_ok in E. destruct E as (p & _ & E).
      repeat split; [now left | now apply patientViewCard_body with p].
    + unfold sent. cbn [res_of]. congruence.
  - destruct (hypertension_runs req net r) as [[e H] | H]; rewrite H.
    + unfold sent. cbn [res_of]. congruence.
    + unfold hypertension_settle.
      destruct (conditionsBundle <- retrieveHypertensionConditionsFhirJs net ;;
                patientHypertensionCard conditionsBundle)
        as [[card |] | e] eqn:E.
      * intros Hs. apply sent_reply in Hs; [| exact Hw | reflexivity].
        subst w. cbn. apply bind_ok in E. destruct E as (b & _ & E).
        repeat split; [now right | now apply patientHypertensionCard_body with b].
      * unfold sent. cbn [res_of status wire]. congruence.
      * unfold sent. cbn [res_of status wire]. congruence.
  - unfold order_select_example, orderSelectCard.
    destruct (draftOrder <- draftOrder_of (body req) ;;
              selections <- selections_of (body req) ;;
              order_select_decision draftOrder selections)
      as [[card |] | e] eqn:E.
    + intros H. apply sent_reply in H; [| exact Hw | reflexivity].
      subst w. cbn. apply bind_ok in E. destruct E as (d & _ & E).
      apply bind_ok in E. destruct E as (sel & _ & E).
      repeat split; [now left | now apply order_select_decision_body with d sel].
    + unfold sent. cbn [res_of status wire]. congruence.
    + unfold sent. cbn [res_of]. congruence.
Qed.

Lemma post_malformed (s : service) (req : Request) (net : settled) (r : Res) :
  malformed s (body req) -> post s req net r = Threw TypeError r.
Proof.
  destruct s; cbn [malformed post]; intros H.
  - unfold patient_view_example, requestedPatient_of. now rewrite H.
  - unfold patient_view_hypertension, hypertension_begin.
    destruct (get_total _ _ "fhirServer" _ H) as [x Hx].
    now rewrite Hx, H.
  - unfold order_select_example, orderSelectCard, draftOrder_of.
    now rewrite H.
Qed.

End BodyFacts.

(** C9.  Whatever body a POST service sends is an object holding a
    [cards] array, and every card in it has its [source] filled in. *)
Theorem post_bodies_well_formed
  (s : service) (req : Request) (net : settled) (r : Res) (w : Wire) :
  wire r = None ->
  sent (post s req net r) = Some w ->
  exists cs,
    w_body w = Some (VObj [("cards", VArr cs)])
    /\ Forall has_source cs
    /\ cards (post s req net r) = cs.
Proof.
  intros Hw Hs.
  destruct (post_sent s req net r w Hw Hs) as (_ & _ & cs & Hb & Hsrc).
  exists cs. repeat split; try assumption.
  unfold cards. rewrite Hs, Hb. reflexivity.
Qed.

(** The order-select service run on a selected draft order with another
    medication. *)
Lemma post_bodies_well_formed_witness :
  exists w cs,
    sent
      (post OrderSelectExample
         (example_request "POST" "/cds-services/order-select-example" None
            (order_select_body
               [draft_entry "MedicationRequest" "smart-123" "11111"]
               (VArr [VStr "MedicationRequest/smart-123"])))
         (Rejected VNull) after_cors)
    = Some w
    /\ w_body w = Some (VObj [("cards", VArr cs)])
    /\ Forall has_source cs.
Proof.
  eexists.
  destruct
    (post_bodies_well_formed OrderSelectExample
       (example_request "POST" "/cds-services/order-select-example" None
          (order_select_body
             [draft_entry "MedicationRequest" "smart-123" "11111"]
             (VArr [VStr "MedicationRequest/smart-123"])))
       (Rejected VNull) after_cors _ eq_refl eq_refl)
    as (cs & Hb & Hsrc & _).
  exists cs. split; [reflexivity | split; assumption].
Defined.

(** ** After the gate *)

Section AppFacts.

Variable jwkToPem : value -> string.
Variable jwt_verify : Z -> string -> string -> VerifyOptions -> result value.

(** The gate lets the response through untouched or answers 401. *)
Lemma gate_cases (now : Z) (req : Request) (r : Res) :
  gate jwkToPem jwt_verify now req r = Next r
  \/ exists d,
       gate jwkToPem jwt_verify now req r
       = reject (header_value (host req)) d r.
Proof.
  unfold gate.
  destruct (String.eqb (method req) "OPTIONS"); [now left |].
  match goal with |- context [if ?b then _ else _] => destruct b end;
    [right; eauto |].
  match goal with |- context [jwt_verify ?a ?b ?c ?d] =>
    destruct (jwt_verify a b c d) end; [now left | right; eauto].
Qed.

End AppFacts.

Section ServedFacts.

Lemma default_error_status_ok (r : Res) :
  statusCode r = 200%Z -> default_error_status r = 500%Z.
Proof. intros H. unfold default_error_status. now rewrite H. Qed.

Lemma caught_thrown (e : exn) (r : Res) :
  wire r = None -> statusCode r = 200%Z ->
  caught (Threw e r) = Answered 500.
Proof.
  intros Hw Hs. cbn [caught]. now rewrite Hw, default_error_status_ok.
Qed.

(** A request that reached a handler is answered 200, answered 500, or
    not answered. *)
Lemma served_codes (s : service) (req : Request) (net : settled) (r : Res)
  (code : Z) :
  wire r = None -> statusCode r = 200%Z ->
  served s req net r = Answered code -> code = 200%Z \/ code = 500%Z.
Proof.
  intros Hw Hs. destruct s; cbn [served post].
  - unfold patient_view_example.
    destruct (_ <- _ ;; _) as [card | e].
    + rewrite reply_unsent by exact Hw.
      cbn [caught res_of]. unfold seen, status, freeze.
        cbn [wire w_status statusCode].
      rewrite Hs.
      intros E. injection E as <-. now left.
    + rewrite caught_thrown by assumption. intros E. injection E as <-.
      now right.
  - destruct (hypertension_begin_cases req r) as [[e H] | [call H]];
      rewrite H.
    + rewrite caught_thrown by assumption. intros E. injection E as <-.
      now right.
    + unfold hypertension_settle.
      destruct (_ <- _ ;; _) as [[card |] | e].
      * rewrite reply_unsent by exact Hw.
        cbn [caught res_of]. unfold seen, status, freeze.
        cbn [wire w_status statusCode].
        intros E. injection E as <-. now left.
      * cbn [caught res_of]. unfold seen, status. cbn [wire].
        rewrite Hw. discriminate.
      * cbn [caught res_of]. unfold seen, status. cbn [wire].
        rewrite Hw. discriminate.
  - unfold order_select_example.
    destruct (orderSelectCard (body req)) as [[card |] | e].
    + rewrite reply_unsent by exact Hw.
      cbn [caught res_of]. unfold seen, status, freeze.
        cbn [wire w_status statusCode].
      rewrite Hs.
      intros E. injection E as <-. now left.
    + cbn [caught res_of]. unfold seen, status. cbn [wire].
        rewrite Hw. discriminate.
    + rewrite caught_thrown by assumption. intros E. injection E as <-.
      now right.
Qed.

Lemma served_malformed (s : service) (req : Request) (net : settled)
  (r : Res) :
  wire r = None -> statusCode r = 200%Z ->
  malformed s (body req) -> served s req net r = Answered 500.
Proof.
  intros Hw Hs Hm.
  pose proof (post_malformed s req net r Hm) as Hp.
  destruct s; cbn [served].
  - rewrite Hp. now apply caught_thrown.
  - cbn [malformed] in Hm. unfold hypertension_begin.
    destruct (get_total _ _ "fhirServer" _ Hm) as [x Hx].
    rewrite Hx, Hm. cbn [bind get]. now apply caught_thrown.
  - rewrite Hp. now apply caught_thrown.
Qed.

End ServedFacts.

(** C7, as stated, fails: a request that passes the gate but whose body
    has no [prefetch] makes the patient-view handler throw before it
    sends anything; the request is answered with status 500, not with a
    200 response holding cards. *)
Lemma malformed_context_answered_500 :
  let req :=
    example_request "POST" "/cds-services/patient-view-example"
      (Some "Bearer https://cds.example.org/cds-services/patient-view-example")
      (VObj [("hook", VStr "patient-view")]) in
  gate toy_jwkToPem toy_verify 900 req after_cors = Next after_cors
  /\ post PatientViewExample req (Rejected VNull) after_cors
     = Threw TypeError after_cors
  /\ sent (post PatientViewExample req (Rejected VNull) after_cors) = None
  /\ served PatientViewExample req (Rejected VNull) after_cors
     = Answered 500.
Proof. vm_compute. repeat split. Qed.

(** C7, amended.  For a request that passed the gate and reached a POST
    handler, authentication failures are not the only failures surfaced
    with a status of their own: a malformed context (a body without
    [prefetch] for the patient-view service, without [context] for the
    other two) makes the handler throw a [TypeError] before anything is
    sent, and the request is answered with status 500.  No handler sends
    an error status itself: what a handler sends is a 200 response with a
    [cards] array, so such a request is answered 200 or 500 when it is
    answered. *)
Theorem handler_failures_surface
  (s : service) (req : Request) (net : settled) (r : Res) :
  wire r = None ->
  statusCode r = 200%Z ->
  (malformed s (body req) ->
   post s req net r = Threw TypeError r
   /\ served s req net r = Answered 500)
  /\ (forall code,
         served s req net r = Answered code -> code = 200%Z \/ code = 500%Z)
  /\ (forall w,
         sent (post s req net r) = Some w ->
         w_status w = 200%Z /\ cards_body (w_body w)).
Proof.
  intros Hw Hs. split; [| split].
  - intros Hm. split; [now apply post_malformed | now apply served_malformed].
  - intros code. now apply served_codes.
  - intros w H. destruct (post_sent s req net r w Hw H) as ([E | E] & _ & Hb);
      split; congruence || assumption.
Qed.

(** The order-select service reached with a body that lacks the context. *)
Lemma handler_failures_surface_witness :
  served OrderSelectExample
    (example_request "POST" "/cds-services/order-select-example"
       (Some "Bearer https://cds.example.org/cds-services/order-select-example")
       (VObj [("hook", VStr "order-select")]))
    (Rejected VNull) after_cors
  = Answered 500.
Proof.
  destruct
    (handler_failures_surface OrderSelectExample
       (example_request "POST" "/cds-services/order-select-example"
          (Some "Bearer https://cds.example.org/cds-services/order-select-example")
          (VObj [("hook", VStr "order-select")]))
       (Rejected VNull) after_cors eq_refl eq_refl) as [H _].
  apply H. reflexivity.
Defined.

(** ** Only the first entry is read *)

Section FirstEntryFacts.

Lemma get_field (v : value) (k : string) (x : value) :
  k <> "length" -> get v k = Ok x -> x = field k v.
Proof.
  intros Hk. apply String.eqb_neq in Hk.
  destruct v; simpl; try discriminate; rewrite ?Hk; congruence.
Qed.

Lemma truthy_length_cons (x : value) (l : list value) :
  truthy (VNum (Z.of_nat (List.length (x :: l)))) = true.
Proof.
  cbn [truthy List.length]. apply negb_true_iff, Z.eqb_neq. lia.
Qed.

(** The card computed from a bundle with entries is the card computed
    from its first entry alone. *)
Lemma card_of_first_entry (bundle : list (string * value)) (entry0 : value)
  (rest : list value) :
  lookup "entry" bundle = Some (VArr (entry0 :: rest)) ->
  patientHypertensionCard (VObj bundle)
  = patientHypertensionCard (VObj [("entry", VArr [entry0])]).
Proof.
  intros H. unfold patientHypertensionCard.
  cbn [get bind lookup String.eqb Ascii.eqb Bool.eqb of_option].
  rewrite H. cbn [of_option truthy get bind String.eqb Ascii.eqb Bool.eqb].
  change (Z.of_nat (List.length (entry0 :: rest)))
    with (Z.of_nat (S (List.length rest))).
  pose proof (truthy_length_cons entry0 rest) as Ht.
  cbn [truthy List.length] in Ht. rewrite Ht.
  reflexivity.
Qed.

Lemma settle_of_first_entry (res bundle : list (string * value))
  (entry0 : value) (rest : list value) (r : Res) :
  lookup "data" res = Some (VObj bundle) ->
  lookup "entry" bundle = Some (VArr (entry0 :: rest)) ->
  hypertension_settle (Resolved (VObj res)) r
  = hypertension_settle
      (Resolved (VObj [("data", VObj [("entry", VArr [entry0])])])) r.
Proof.
  intros Hd He. unfold hypertension_settle.
  cbn [retrieveHypertensionConditionsFhirJs get lookup String.eqb Ascii.eqb
         Bool.eqb of_option].
  rewrite Hd. cbn [of_option bind].
  now rewrite (card_of_first_entry bundle entry0 rest He).
Qed.

Lemma first_entry_not_condition (res bundle : list (string * value))
  (entry0 : value) (rest : list value) :
  lookup "data" res = Some (VObj bundle) ->
  lookup "entry" bundle = Some (VArr (entry0 :: rest)) ->
  loose_eq_str (field "resourceType" (field "resource" entry0)) "Condition"
  = false ->
  first_entry_is_condition (Resolved (VObj res)) = false.
Proof.
  intros Hd He Hc. unfold first_entry_is_condition, first_entry_type.
  cbn [retrieveHypertensionConditionsFhirJs get]. rewrite Hd.
  cbn [of_option bind get]. rewrite He. cbn [of_option bind index nth].
  destruct (get entry0 "resource") as [resource | e] eqn:E1; cbn [bind];
    [| reflexivity].
  destruct (get resource "resourceType") as [t | e] eqn:E2; [| reflexivity].
  apply get_field in E1; [| discriminate].
  apply get_field in E2; [| discriminate].
  now subst.
Qed.

End FirstEntryFacts.

(** C10.  Both handlers read entry 0 only.  Two search results whose
    bundles start with the same entry get the same answer from the
    hypertension handler, and a first entry that is not a Condition gives
    no card whatever follows it.  Two order-select requests that agree on
    the first draft order and on the selections get the same answer,
    whatever draft orders follow. *)
Theorem first_entry_only :
  (forall req r res1 res2 bundle1 bundle2 entry0 rest1 rest2,
      lookup "data" res1 = Some (VObj bundle1) ->
      lookup "data" res2 = Some (VObj bundle2) ->
      lookup "entry" bundle1 = Some (VArr (entry0 :: rest1)) ->
      lookup "entry" bundle2 = Some (VArr (entry0 :: rest2)) ->
      patient_view_hypertension req (Resolved (VObj res1)) r
      = patient_view_hypertension req (Resolved (VObj res2)) r)
  /\ (forall req r res bundle entry0 rest,
         wire r = None ->
         lookup "data" res = Some (VObj bundle) ->
         lookup "entry" bundle = Some (VArr (entry0 :: rest)) ->
         loose_eq_str (field "resourceType" (field "resource" entry0))
           "Condition" = false ->
         cards (patient_view_hypertension req (Resolved (VObj res)) r) = [])
  /\ (forall req1 req2 r context1 context2 drafts1 drafts2 entry0 rest1 rest2,
         get (body req1) "context" = Ok context1 ->
         get (body req2) "context" = Ok context2 ->
         get context1 "draftOrders" = Ok drafts1 ->
         get context2 "draftOrders" = Ok drafts2 ->
         get drafts1 "entry" = Ok (VArr (entry0 :: rest1)) ->
         get drafts2 "entry" = Ok (VArr (entry0 :: rest2)) ->
         get context1 "selections" = get context2 "selections" ->
         order_select_example req1 r = order_select_example req2 r).
Proof.
  split; [| split].
  - intros req r res1 res2 b1 b2 e0 rest1 rest2 Hd1 Hd2 He1 He2.
    unfold patient_view_hypertension.
    destruct (hypertension_begin req r) as [[r' | r' | e r'] [call |]];
      try reflexivity.
    rewrite (settle_of_first_entry res1 b1 e0 rest1 r' Hd1 He1).
    now rewrite (settle_of_first_entry res2 b2 e0 rest2 r' Hd2 He2).
  - intros req r res b e0 rest Hw Hd He Hc.
    pose proof (first_entry_not_condition res b e0 rest Hd He Hc) as Hf.
    destruct (hypertension_runs req (Resolved (VObj res)) r)
      as [[e H] | H]; rewrite H.
    + now apply cards_unsent.
    + unfold cards.
      now rewrite (settle_without_condition _ (status 200 r) Hw Hf).
  - intros req1 req2 r c1 c2 d1 d2 e0 rest1 rest2 Hc1 Hc2 Hd1 Hd2 He1 He2 Hs.
    unfold order_select_example, orderSelectCard, draftOrder_of,
      selections_of.
    rewrite Hc1, Hc2. cbn [bind]. rewrite Hd1, Hd2. cbn [bind].
    rewrite He1, He2. cbn [bind index nth]. now rewrite Hs.
Qed.

(** The hypertension handler run on a bundle whose second entry is a
    Condition. *)
Lemma first_entry_only_witness :
  cards
    (patient_view_hypertension
       (example_request "POST" "/cds-services/patient-view-hypertension"
          None hypertension_body)
       (search_result
          (bundle_of [other_entry "Observation";
                      condition_entry "Hypertension"]))
       after_cors)
  = [].
Proof.
  destruct first_entry_only as (_ & H & _).
  apply (H (example_request "POST" "/cds-services/patient-view-hypertension"
              None hypertension_body)
           after_cors
           [("status", VNum 200);
            ("data", bundle_of [other_entry "Observation";
                                condition_entry "Hypertension"])]
           _ _ _ eq_refl eq_refl eq_refl eq_refl).
Defined.

(** * Further properties of the program *)

(** ** Middleware chain *)

Section ChainFacts.

Variable jwkToPem : value -> string.
Variable jwt_verify : Z -> string -> string -> VerifyOptions -> result value.

Lemma header_get_put_other (k k' v : string) (hs : list (string * string)) :
  k' <> k -> header_get k' (header_put k v hs) = header_get k' hs.
Proof.
  intros Hne. induction hs as [|[k0 v0] hs IH]; simpl.
  - apply String.eqb_neq in Hne. now rewrite Hne.
  - destruct (String.eqb k k0) eqn:E; simpl.
    + apply String.eqb_eq in E. subst k0.
      apply String.eqb_neq in Hne. now rewrite Hne.
    + now rewrite IH.
Qed.

Lemma reject_keeps_cors (realm : value) (d : string) (r : Res) :
  wire r = None -> has_cors (headers r) ->
  has_cors (headers (res_of (reject realm d r)))
  /\ forall w, sent (reject realm d r) = Some w -> has_cors (w_headers w).
Proof.
  intros Hw Hc.
  assert (H : has_cors (header_put "WWW-Authenticate"
                          (challenge realm "invalid_token" d) (headers r))).
  { unfold has_cors in *. rewrite Forall_forall in *. intros kv Hin.
    rewrite header_get_put_other; [now apply Hc |].
    unfold cors_headers in Hin. simpl in Hin.
    repeat (destruct Hin as [<- | Hin]; [discriminate |]). contradiction. }
  unfold reject, end_, sent. cbn [res_of status setHeader wire].
  rewrite Hw. cbn [freeze headers wire]. split; [exact H |].
  intros w E. injection E as <-. exact H.
Qed.

Lemma replace_absent (p r s : string) :
  contains p s = false -> replace p r s = s.
Proof.
  induction s as [|c s IH]; simpl; intros H.
  - apply orb_false_iff in H. destruct H as [H _]. now rewrite H.
  - apply orb_false_iff in H. destruct H as [H1 H2].
    rewrite H1. now rewrite IH.
Qed.

End ChainFacts.

Section CorsFacts.

(** The CORS middleware sets its five headers over whatever was there. *)
Lemma cors_sets_headers (r : Res) : has_cors (headers (res_of (cors r))).
Proof.
  unfold cors. cbn [res_of setHeader headers].
  repeat constructor; cbn [fst snd];
    rewrite ?header_get_put_other by discriminate; apply header_get_put.
Qed.

End CorsFacts.

(** X2.  On a response that went through the CORS middleware the five
    CORS headers, with their fixed values, stay in place: the 401 of the
    authorization middleware carries them, and so does every response a
    POST handler sends. *)
Theorem cors_headers_on_answers
  (jwkToPem : value -> string)
  (jwt_verify : Z -> string -> string -> VerifyOptions -> result value)
  (now : Z) (req : Request) (r0 : Res) :
  wire r0 = None ->
  let r1 := res_of (cors r0) in
  has_cors (headers r1)
  /\ (forall w,
         sent (gate jwkToPem jwt_verify now req r1) = Some w ->
         has_cors (w_headers w))
  /\ (forall s net w,
         sent (post s req net r1) = Some w -> has_cors (w_headers w)).
Proof.
  intros Hw r1.
  assert (Hw1 : wire r1 = None) by exact Hw.
  assert (Hc : has_cors (headers r1)) by apply cors_sets_headers.
  split; [exact Hc | split].
  - intros w Hs.
    destruct (gate_cases jwkToPem jwt_verify now req r1) as [Hg | [d Hg]];
      rewrite Hg in Hs.
    + unfold sent in Hs. cbn [res_of] in Hs. congruence.
    + now apply (reject_keeps_cors (header_value (host req)) d r1 Hw1 Hc).
  - intros s net w Hs.
    destruct (post_sent s req net r1 w Hw1 Hs) as (_ & E & _).
    now rewrite E.
Qed.

(** The gate run, after the CORS middleware, on a request without
    credentials: its 401 carries the CORS headers. *)
Lemma cors_headers_on_answers_witness :
  exists w,
    sent
      (gate toy_jwkToPem toy_verify 900
         (example_request "POST" "/cds-services/order-select-example" None
            VNull)
         (res_of (cors fresh)))
    = Some w
    /\ w_status w = 401%Z
    /\ has_cors (w_headers w).
Proof.
  eexists. split; [reflexivity |]. split; [reflexivity |].
  destruct
    (cors_headers_on_answers toy_jwkToPem toy_verify 900
       (example_request "POST" "/cds-services/order-select-example" None
          VNull)
       fresh eq_refl) as (_ & H & _).
  apply H. reflexivity.
Defined.

(** X4.  The token is cut out with an unanchored [replace]: a header that
    starts with [Bearer] but holds no [Bearer ] (the word alone, or the
    word glued to what follows) is not refused as missing; the whole
    header is handed to the verifier as the token. *)
Theorem bearer_without_space_is_verified_whole
  (jwkToPem : value -> string)
  (jwt_verify : Z -> string -> string -> VerifyOptions -> result value)
  (now : Z) (req : Request) (r : Res) (h : string) :
  method req <> "OPTIONS" ->
  authorization req = Some h ->
  starts_with "Bearer" h = true ->
  contains "Bearer " h = false ->
  gate jwkToPem jwt_verify now req r
  = match jwt_verify now h (jwkToPem publicKey) (options_of req) with
    | Ok _ => Next r
    | Throw _ => reject (header_value (host req)) "The token is invalid." r
    end.
Proof.
  intros Hm Ha Hb Hc.
  rewrite (gate_verifies jwkToPem jwt_verify now req r h Hm Ha Hb).
  unfold token_of. now rewrite (replace_absent _ _ _ Hc).
Qed.

(** The gate run on the header [Bearer] alone. *)
Lemma bearer_without_space_is_verified_whole_witness :
  unauthorized
    (gate toy_jwkToPem toy_verify 900
       (example_request "GET" "/cds-services" (Some "Bearer") VNull)
       after_cors)
    (VStr "cds.example.org") "invalid_token" "The token is invalid.".
Proof.
  rewrite (bearer_without_space_is_verified_whole toy_jwkToPem toy_verify 900
             (example_request "GET" "/cds-services" (Some "Bearer") VNull)
             after_cors "Bearer");
    [| discriminate | reflexivity | reflexivity | reflexivity].
  apply (reject_unauthorized (VStr "cds.example.org") "The token is invalid."
           after_cors eq_refl).
Defined.

(** ** The outbound search as the handler issues it *)

Section SearchFacts.

(** On a value that is not an object only [length] can be read. *)
Lemma get_as_field (v : value) (k : string) :
  k <> "length" -> truthy v = true -> get v k = Ok (field k v).
Proof.
  intros Hk Ht. apply String.eqb_neq in Hk.
  destruct v; simpl in *; try discriminate; rewrite ?Hk; reflexivity.
Qed.

Lemma field_of_falsy (v : value) (k : string) :
  truthy v = false -> truthy (field k v) = false.
Proof. destruct v; simpl; try discriminate; reflexivity. Qed.

(** The token both variants read: [fhirAuthorization &&
    fhirAuthorization.access_token]. *)
Lemma token_read (fhirAuthorization : value) :
  exists token,
    (if truthy fhirAuthorization
     then get fhirAuthorization "access_token"
     else Ok fhirAuthorization) = Ok token
    /\ truthy token = truthy (field "access_token" fhirAuthorization)
    /\ (truthy token = true ->
        token = field "access_token" fhirAuthorization).
Proof.
  destruct (truthy fhirAuthorization) eqn:E.
  - rewrite get_as_field by (discriminate || assumption). eauto.
  - exists fhirAuthorization. split; [reflexivity |].
    rewrite (field_of_falsy _ _ E). split; [exact E | congruence].
Qed.

End SearchFacts.

(** X5.  The search of the hypertension handler goes to the server named
    by [fhirServer], asks for the Conditions of the patient in context
    with the fixed SNOMED code, and carries the bearer credential exactly
    when the request has a non-empty [fhirAuthorization.access_token];
    nothing of this is validated (a missing [fhirServer] is passed on as
    [undefined]).  Without a context no search is issued: the handler
    throws first. *)
Theorem hypertension_search_issued (req : Request) (r : Res) :
  (forall ctx,
      get (body req) "context" = Ok (VObj ctx) ->
      exists config query,
        hypertension_begin req r = (Done (status 200 r), Some (config, query))
        /\ field "baseUrl" config = field "fhirServer" (body req)
        /\ field "auth" config
           = (let token :=
                field "access_token" (field "fhirAuthorization" (body req)) in
              if truthy token then VObj [("bearer", token)] else VUndef)
        /\ query
           = VObj [("type", VStr "Condition");
                   ("query",
                    VObj [("patient", of_option (lookup "patientId" ctx));
                          ("code", VStr "http://snomed.info/sct|1201005")])])
  /\ (get (body req) "context" = Ok VUndef ->
      hypertension_begin req r = (Threw TypeError r, None)).
Proof.
  split.
  - intros ctx Hctx. unfold hypertension_begin.
    assert (Hb : forall k, k <> "length" ->
                           get (body req) k = Ok (field k (body req))).
    { intros k Hk. apply String.eqb_neq in Hk.
      destruct (body req); simpl in *; try discriminate; rewrite ?Hk;
        reflexivity. }
    rewrite (Hb "fhirServer"), Hctx, (Hb "fhirAuthorization")
      by discriminate.
    cbn [bind get]. unfold fhirjs_call.
    destruct (token_read (field "fhirAuthorization" (body req)))
      as (token & Ht & Htruthy & Hval).
    rewrite Ht. cbn [bind]. rewrite <- Htruthy.
    destruct (truthy token) eqn:E.
    + rewrite <- (Hval eq_refl). eexists _, _. repeat split.
    + eexists _, _. repeat split.
  - intros Hctx. unfold hypertension_begin.
    destruct (get_total _ _ "fhirServer" _ Hctx) as [x Hx].
    now rewrite Hx, Hctx.
Qed.

(** The search issued for the example request. *)
Lemma hypertension_search_issued_witness :
  exists config query,
    hypertension_begin
      (example_request "POST" "/cds-services/patient-view-hypertension" None
         hypertension_body)
      after_cors
    = (Done (status 200 after_cors), Some (config, query))
    /\ field "baseUrl" config = VStr "https://fhir.example.org/r2"
    /\ field "auth" config = VObj [("bearer", VStr "secret")].
Proof.
  destruct
    (hypertension_search_issued
       (example_request "POST" "/cds-services/patient-view-hypertension" None
          hypertension_body)
       after_cors) as [H _].
  destruct (H _ eq_refl) as (config & query & H1 & H2 & H3 & _).
  exists config, query. repeat split; assumption.
Defined.


(** ** The hypertension callback at its edges *)

Section CallbackFacts.

Lemma hypertension_after_begin (req : Request) (net : settled) (r : Res)
  (ctx : list (string * value)) :
  get (body req) "context" = Ok (VObj ctx) ->
  patient_view_hypertension req net r
  = hypertension_settle net (status 200 r).
Proof.
  intros Hctx. unfold patient_view_hypertension.
  destruct (hypertension_begin_ok req r ctx Hctx) as [call H].
  now rewrite H.
Qed.

End CallbackFacts.

(** X7.  A failed search does not end in an empty answer.  The fetcher
    swallows the failure and hands [undefined] to the callback of the
    handler, which throws a [TypeError] when it reads [entry]: status 200
    is recorded and nothing is sent.  The same happens when the search
    succeeds with a response that has no [data]. *)
Theorem hypertension_failed_search_throws
  (req : Request) (r : Res) (ctx : list (string * value)) :
  get (body req) "context" = Ok (VObj ctx) ->
  (forall reason,
      reason <> VUndef -> reason <> VNull ->
      patient_view_hypertension req (Rejected reason) r
      = Threw TypeError (status 200 r))
  /\ (forall res,
         get res "data" = Ok VUndef ->
         patient_view_hypertension req (Resolved res) r
         = Threw TypeError (status 200 r)).
Proof.
  intros Hctx. split.
  - intros reason H1 H2.
    rewrite (hypertension_after_begin req _ r ctx Hctx).
    unfold hypertension_settle.
    destruct reason; try congruence; reflexivity.
  - intros res Hd.
    rewrite (hypertension_after_begin req _ r ctx Hctx).
    unfold hypertension_settle. cbn [retrieveHypertensionConditionsFhirJs].
    now rewrite Hd.
Qed.

(** The handler run on a search that timed out. *)
Lemma hypertension_failed_search_throws_witness :
  patient_view_hypertension
    (example_request "POST" "/cds-services/patient-view-hypertension" None
       hypertension_body)
    (Rejected (VObj [("message", VStr "timeout of 2000ms exceeded")]))
    after_cors
  = Threw TypeError (status 200 after_cors).
Proof.
  destruct
    (hypertension_failed_search_throws
       (example_request "POST" "/cds-services/patient-view-hypertension" None
          hypertension_body)
       after_cors _ eq_refl) as [H _].
  apply H; discriminate.
Defined.

(** X8.  A bundle without entries is the quiet case: when the fetched
    bundle has no [entry] or an empty one, the callback returns without
    throwing and without sending; the handler ends with status 200
    recorded on a response that is still open. *)
Theorem hypertension_no_entries_quiet
  (req : Request) (r : Res) (ctx res bundle : list (string * value)) :
  get (body req) "context" = Ok (VObj ctx) ->
  lookup "data" res = Some (VObj bundle) ->
  lookup "entry" bundle = None \/ lookup "entry" bundle = Some (VArr []) ->
  patient_view_hypertension req (Resolved (VObj res)) r
  = Done (status 200 r).
Proof.
  intros Hctx Hd He.
  rewrite (hypertension_after_begin req _ r ctx Hctx).
  unfold hypertension_settle.
  cbn [retrieveHypertensionConditionsFhirJs get]. rewrite Hd.
  cbn [of_option bind]. unfold patientHypertensionCard. cbn [get bind].
  destruct He as [He | He]; rewrite He; reflexivity.
Qed.

(** The handler run on a bundle with [total: 0] and no entries. *)
Lemma hypertension_no_entries_quiet_witness :
  patient_view_hypertension
    (example_request "POST" "/cds-services/patient-view-hypertension" None
       hypertension_body)
    (search_result
       (VObj [("resourceType", VStr "Bundle"); ("total", VNum 0)]))
    after_cors
  = Done (status 200 after_cors).
Proof.
  apply (hypertension_no_entries_quiet
           (example_request "POST" "/cds-services/patient-view-hypertension"
              None hypertension_body)
           after_cors
           [("patientId", VStr "SMART-1288992")]
           [("status", VNum 200);
            ("data", VObj [("resourceType", VStr "Bundle");
                           ("total", VNum 0)])]
           [("resourceType", VStr "Bundle"); ("total", VNum 0)]);
    [reflexivity | reflexivity | left; reflexivity].
Defined.

(** X9.  The callback trusts the shape of the first entry: an entry
    without [resource], or a Condition without [code], makes it throw a
    [TypeError]; nothing is sent. *)
Theorem hypertension_malformed_entry_throws
  (req : Request) (r : Res)
  (ctx res bundle entry0 : list (string * value)) (rest : list value) :
  get (body req) "context" = Ok (VObj ctx) ->
  lookup "data" res = Some (VObj bundle) ->
  lookup "entry" bundle = Some (VArr (VObj entry0 :: rest)) ->
  (lookup "resource" entry0 = None
   \/ exists condition,
        lookup "resource" entry0 = Some (VObj condition)
        /\ lookup "resourceType" condition = Some (VStr "Condition")
        /\ lookup "code" condition = None) ->
  patient_view_hypertension req (Resolved (VObj res)) r
  = Threw TypeError (status 200 r).
Proof.
  intros Hctx Hd He Hbad.
  rewrite (hypertension_after_begin req _ r ctx Hctx).
  unfold hypertension_settle.
  cbn [retrieveHypertensionConditionsFhirJs get]. rewrite Hd.
  cbn [of_option bind].
  rewrite (card_of_first_entry bundle (VObj entry0) rest He).
  unfold patientHypertensionCard.
  cbn [get bind lookup String.eqb Ascii.eqb Bool.eqb of_option truthy
         List.length Z.of_nat Pos.of_succ_nat Z.eqb negb index nth].
  destruct Hbad as [Hr | (condition & Hr & Hty & Hcode)]; rewrite Hr.
  - reflexivity.
  - cbn [of_option get bind]. rewrite Hty. cbn [of_option].
    change (loose_eq_str (VStr "Condition") "Condition") with true.
    cbv iota. now rewrite Hcode.
Qed.

(** The handler run on a Condition that has no code. *)
Lemma hypertension_malformed_entry_throws_witness :
  patient_view_hypertension
    (example_request "POST" "/cds-services/patient-view-hypertension" None
       hypertension_body)
    (search_result
       (bundle_of [VObj [("resource",
                          VObj [("resourceType", VStr "Condition");
                                ("id", VStr "c1")])]]))
    after_cors
  = Threw TypeError (status 200 after_cors).
Proof.
  apply (hypertension_malformed_entry_throws
           (example_request "POST" "/cds-services/patient-view-hypertension"
              None hypertension_body)
           after_cors
           [("patientId", VStr "SMART-1288992")]
           [("status", VNum 200);
            ("data",
             bundle_of [VObj [("resource",
                               VObj [("resourceType", VStr "Condition");
                                     ("id", VStr "c1")])]])]
           [("resourceType", VStr "Bundle");
            ("entry",
             VArr [VObj [("resource",
                          VObj [("resourceType", VStr "Condition");
                                ("id", VStr "c1")])]])]
           [("resource",
             VObj [("resourceType", VStr "Condition"); ("id", VStr "c1")])]
           []);
    [reflexivity | reflexivity | reflexivity |].
  right. eexists. repeat split; reflexivity.
Defined.

(** ** The patient-view card in general *)

Section PatientViewFacts.

Ltac read_steps :=
  repeat match goal with
         | |- context [bind ?m _] =>
             destruct m; cbn [bind]; try discriminate
         end.

(** Whatever patient the card is built from, it is one info card with the
    two links. *)
Lemma patientViewCard_one_card (patientResource v : value) :
  patientViewCard patientResource = Ok v ->
  exists card link1 link2,
    v = VObj [("cards", VArr [card])]
    /\ field "indicator" card = VStr "info"
    /\ field "links" card = VArr [link1; link2]
    /\ field "type" link1 = VStr "absolute"
    /\ field "type" link2 = VStr "smart".
Proof.
  unfold patientViewCard. read_steps.
  intros H. injection H as <-. eexists _, _, _. repeat split.
Qed.

End PatientViewFacts.



(** X11.  A patient without a usable name makes the handler throw: no
    [name], an empty [name] list, or a first name entry without [given]
    or without [family] each end in a [TypeError], with nothing sent and
    the response untouched. *)
Theorem patient_view_missing_name_throws
  (req : Request) (r : Res) (patient : list (string * value)) :
  requestedPatient_of (body req) = Ok (VObj patient) ->
  (lookup "name" patient = None
   \/ lookup "name" patient = Some (VArr [])
   \/ exists name0 names,
        lookup "name" patient = Some (VArr (VObj name0 :: names))
        /\ (lookup "given" name0 = None
            \/ exists given0,
                 index (of_option (lookup "given" name0)) 0 = Ok given0
                 /\ lookup "family" name0 = None)) ->
  patient_view_example req r = Threw TypeError r.
Proof.
  intros Hp Hbad. unfold patient_view_example. rewrite Hp. cbn [bind].
  unfold patientViewCard. cbn [get bind].
  destruct Hbad as [H | [H | (name0 & names & H & Hparts)]]; rewrite H;
    try reflexivity.
  cbn [of_option index nth get bind].
  destruct Hparts as [Hg | (given0 & Hg & Hf)].
  - now rewrite Hg.
  - rewrite Hg. cbn [bind]. now rewrite Hf.
Qed.

(** The handler run on a patient whose name list is empty. *)
Lemma patient_view_missing_name_throws_witness :
  patient_view_example
    (example_request "POST" "/cds-services/patient-view-example" None
       (patient_view_body
          (VObj [("resourceType", VStr "Patient"); ("name", VArr []);
                 ("birthDate", VStr "1980-01-01")])))
    after_cors
  = Threw TypeError after_cors.
Proof.
  apply (patient_view_missing_name_throws
           (example_request "POST" "/cds-services/patient-view-example" None
              (patient_view_body
                 (VObj [("resourceType", VStr "Patient"); ("name", VArr []);
                        ("birthDate", VStr "1980-01-01")])))
           after_cors _ eq_refl).
  right. left. reflexivity.
Defined.

(** X12.  The patient-view handler is never silent: on a response that
    was not sent yet it either throws, leaving the response untouched, or
    sends exactly one info card with its two links, under the status the
    response had. *)
Theorem patient_view_throws_or_answers (req : Request) (r : Res) :
  wire r = None ->
  (exists e, patient_view_example req r = Threw e r)
  \/ exists card link1 link2,
       patient_view_example req r
       = Done (freeze (Some (VObj [("cards", VArr [card])])) r)
       /\ field "indicator" card = VStr "info"
       /\ field "links" card = VArr [link1; link2]
       /\ field "type" link1 = VStr "absolute"
       /\ field "type" link2 = VStr "smart".
Proof.
  intros Hw. unfold patient_view_example.
  destruct (requestedPatient_of (body req)) as [p | e]; cbn [bind];
    [| left; eauto].
  destruct (patientViewCard p) as [v | e] eqn:E; [| left; eauto].
  right. destruct (patientViewCard_one_card p v E)
    as (card & l1 & l2 & -> & Hi & Hl & H1 & H2).
  exists card, l1, l2. rewrite reply_unsent by exact Hw. auto.
Qed.

(** The handler run on the example patient. *)
Lemma patient_view_throws_or_answers_witness :
  exists card,
    patient_view_example
      (example_request "POST" "/cds-services/patient-view-example" None
         (patient_view_body patient_family_list))
      after_cors
    = Done (freeze (Some (VObj [("cards", VArr [card])])) after_cors).
Proof.
  destruct
    (patient_view_throws_or_answers
       (example_request "POST" "/cds-services/patient-view-example" None
          (patient_view_body patient_family_list))
       after_cors eq_refl) as [[e H] | (card & l1 & l2 & H & _)].
  - discriminate H.
  - exists card. exact H.
Defined.

(** ** Order select at its edges *)

Section OrderEdgeFacts.

Lemma order_select_runs (req : Request) (r : Res) (draftOrder selections : value) :
  draftOrder_of (body req) = Ok draftOrder ->
  selections_of (body req) = Ok selections ->
  order_select_example req r
  = match order_select_decision draftOrder selections with
    | Ok (Some responseCard) => reply responseCard r (status 200)
    | Ok None => Done (status 200 r)
    | Throw e => Threw e r
    end.
Proof.
  intros Hd Hs. unfold order_select_example, orderSelectCard.
  now rewrite Hd, Hs.
Qed.

Lemma medication_order_type (fs : list (string * value)) :
  medication_order fs ->
  strict_eq_str (of_option (lookup "resourceType" fs)) "MedicationRequest"
  || strict_eq_str (of_option (lookup "resourceType" fs)) "MedicationOrder"
  = true.
Proof. intros [H | H]; rewrite H; reflexivity. Qed.

Lemma not_medication_order_type (fs : list (string * value)) :
  ~ medication_order fs ->
  strict_eq_str (of_option (lookup "resourceType" fs)) "MedicationRequest"
  || strict_eq_str (of_option (lookup "resourceType" fs)) "MedicationOrder"
  = false.
Proof.
  intros H. apply orb_false_iff. split; apply strict_eq_str_false;
    intros E; apply H; [left | right];
    destruct (lookup "resourceType" fs); simpl in E; congruence.
Qed.

Lemma keys_assign_present (k : string) (v x : value)
  (fs : list (string * value)) :
  lookup k fs = Some x ->
  List.map fst (assign k v fs) = List.map fst fs.
Proof.
  induction fs as [|[k0 v0] fs IH]; simpl; [discriminate |].
  destruct (String.eqb k k0) eqn:E; intros H; simpl.
  - apply String.eqb_eq in E. now subst.
  - now rewrite IH.
Qed.

End OrderEdgeFacts.

(** X13.  The two quiet refusals of the order-select handler.  A draft
    order of another resource type is passed over before the selections
    are looked at, whatever they are; a selected medication order without
    [medicationCodeableConcept] (or with an empty one) is passed over as
    well.  In both cases the handler records status 200 and sends
    nothing. *)
Theorem order_select_passes_over
  (req : Request) (r : Res) (fs : list (string * value)) (selections : value) :
  draftOrder_of (body req) = Ok (VObj fs) ->
  selections_of (body req) = Ok selections ->
  (~ medication_order fs ->
   order_select_example req r = Done (status 200 r))
  /\ (forall sels,
         selections = VArr sels ->
         medication_order fs ->
         In (VStr (reference fs)) sels ->
         truthy (of_option (lookup "medicationCodeableConcept" fs)) = false ->
         order_select_example req r = Done (status 200 r)).
Proof.
  intros Hd Hs. rewrite (order_select_runs req r _ _ Hd Hs). split.
  - intros Hty. unfold order_select_decision. cbn [get bind].
    now rewrite (not_medication_order_type fs Hty).
  - intros sels -> Hty Hsel Hc. unfold order_select_decision. cbn [get bind].
    rewrite (medication_order_type fs Hty). fold (reference fs).
    apply includes_array in Hsel. rewrite Hsel. cbn [bind]. now rewrite Hc.
Qed.

(** The handler run on a selected ServiceRequest. *)
Lemma order_select_passes_over_witness :
  order_select_example
    (example_request "POST" "/cds-services/order-select-example" None
       (order_select_body
          [draft_entry "ServiceRequest" "smart-123" "11111"]
          (VArr [VStr "ServiceRequest/smart-123"])))
    after_cors
  = Done (status 200 after_cors).
Proof.
  destruct
    (order_select_passes_over
       (example_request "POST" "/cds-services/order-select-example" None
          (order_select_body
             [draft_entry "ServiceRequest" "smart-123" "11111"]
             (VArr [VStr "ServiceRequest/smart-123"])))
       after_cors _ _ eq_refl eq_refl) as [H _].
  apply H. intros [E | E]; discriminate E.
Defined.

(** X14.  Where the order-select handler throws instead.  For a
    medication order the selections are read without a check, so a
    context without [selections] ends in a [TypeError]; and a selected
    medication order whose [medicationCodeableConcept] has no [coding],
    or an empty one, ends in a [TypeError] inside
    [createMedicationResponseCard].  Nothing is sent and status 200 is
    not even recorded. *)
Theorem order_select_throws
  (req : Request) (r : Res) (fs : list (string * value)) (selections : value) :
  draftOrder_of (body req) = Ok (VObj fs) ->
  selections_of (body req) = Ok selections ->
  medication_order fs ->
  (selections = VUndef -> order_select_example req r = Threw TypeError r)
  /\ (forall sels concept,
         selections = VArr sels ->
         In (VStr (reference fs)) sels ->
         lookup "medicationCodeableConcept" fs = Some (VObj concept) ->
         lookup "coding" concept = None
         \/ lookup "coding" concept = Some (VArr []) ->
         order_select_example req r = Threw TypeError r).
Proof.
  intros Hd Hs Hty. rewrite (order_select_runs req r _ _ Hd Hs). split.
  - intros ->. unfold order_select_decision. cbn [get bind].
    now rewrite (medication_order_type fs Hty).
  - intros sels concept -> Hsel Hc Hcoding.
    unfold order_select_decision. cbn [get bind].
    rewrite (medication_order_type fs Hty). fold (reference fs).
    apply includes_array in Hsel. rewrite Hsel. cbn [bind].
    rewrite Hc. cbn [of_option truthy].
    unfold createMedicationResponseCard. cbn [get bind]. rewrite Hc.
    cbn [of_option get bind].
    destruct Hcoding as [H | H]; rewrite H; reflexivity.
Qed.

(** The handler run on a selected order that names its medication by text
    only. *)
Lemma order_select_throws_witness :
  order_select_example
    (example_request "POST" "/cds-services/order-select-example" None
       (order_select_body
          [VObj [("resource",
                  VObj [("resourceType", VStr "MedicationRequest");
                        ("id", VStr "smart-123");
                        ("medicationCodeableConcept",
                         VObj [("text", VStr "Aspirin 325 MG")])])]]
          (VArr [VStr "MedicationRequest/smart-123"])))
    after_cors
  = Threw TypeError after_cors.
Proof.
  destruct
    (order_select_throws
       (example_request "POST" "/cds-services/order-select-example" None
          (order_select_body
             [VObj [("resource",
                     VObj [("resourceType", VStr "MedicationRequest");
                           ("id", VStr "smart-123");
                           ("medicationCodeableConcept",
                            VObj [("text", VStr "Aspirin 325 MG")])])]]
             (VArr [VStr "MedicationRequest/smart-123"])))
       after_cors _ _ eq_refl eq_refl (or_introl eq_refl)) as [_ H].
  apply (H [VStr "MedicationRequest/smart-123"]
           [("text", VStr "Aspirin 325 MG")] eq_refl);
    [left; reflexivity | reflexivity | left; reflexivity].
Defined.

(** X15.  The suggested resource is the draft order with one property
    replaced: it has the same keys in the same order, every property
    other than [medicationCodeableConcept] keeps its value (so the
    reference [resourceType/id] is the same), and
    [medicationCodeableConcept] is the Aspirin concept. *)
Theorem suggestion_keeps_the_order
  (fs coding0 : list (string * value)) :
  coded_medication fs coding0 ->
  lookup "code" coding0 <> Some (VStr "243670") ->
  exists b fs',
    createMedicationResponseCard (VObj fs) = Ok b
    /\ suggested_resource b = VObj fs'
    /\ List.map fst fs' = List.map fst fs
    /\ (forall k, k <> "medicationCodeableConcept" ->
                  lookup k fs' = lookup k fs)
    /\ lookup "medicationCodeableConcept" fs' = Some aspirin_concept
    /\ reference fs' = reference fs.
Proof.
  intros Hcoded Hcode.
  rewrite (card_for_other fs coding0 Hcoded Hcode).
  destruct Hcoded as (concept & rest & Hc & _).
  eexists. exists (assign "medicationCodeableConcept" aspirin_concept fs).
  split; [reflexivity |]. split; [reflexivity |].
  split; [now apply keys_assign_present with (x := VObj concept) |].
  split; [intros k Hk; now apply lookup_assign_other |].
  split; [apply lookup_assign_same |].
  unfold reference. now rewrite !lookup_assign_other by discriminate.
Qed.

(** The card built for a draft order of another medication. *)
Lemma suggestion_keeps_the_order_witness :
  exists b fs',
    createMedicationResponseCard
      (VObj [("resourceType", VStr "MedicationRequest");
             ("id", VStr "smart-123");
             ("medicationCodeableConcept",
              VObj [("coding", VArr [VObj [("code", VStr "11111")]])]);
             ("status", VStr "draft")])
    = Ok b
    /\ suggested_resource b = VObj fs'
    /\ List.map fst fs'
       = ["resourceType"; "id"; "medicationCodeableConcept"; "status"].
Proof.
  destruct
    (suggestion_keeps_the_order
       [("resourceType", VStr "MedicationRequest");
        ("id", VStr "smart-123");
        ("medicationCodeableConcept",
         VObj [("coding", VArr [VObj [("code", VStr "11111")]])]);
        ("status", VStr "draft")]
       [("code", VStr "11111")])
    as (b & fs' & H1 & H2 & H3 & _).
  - eexists _, _. split; reflexivity.
  - discriminate.
  - exists b, fs'. repeat split; assumption.
Defined.

(** X16.  Taking the suggestion settles the matter: when the handler has
    answered a selected order with the warning card, the same handler run
    on the suggested resource, under the same selections, answers with
    the info card and suggests nothing more. *)
Theorem accepted_suggestion_gets_info_card
  (fs coding0 : list (string * value)) (sels : list value) :
  medication_order fs ->
  In (VStr (reference fs)) sels ->
  coded_medication fs coding0 ->
  lookup "code" coding0 <> Some (VStr "243670") ->
  exists warning info,
    order_select_decision (VObj fs) (VArr sels) = Ok (Some warning)
    /\ field "indicator" (first (field "cards" warning)) = VStr "warning"
    /\ order_select_decision (suggested_resource warning) (VArr sels)
       = Ok (Some info)
    /\ field "indicator" (first (field "cards" info)) = VStr "info"
    /\ field "suggestions" (first (field "cards" info)) = VUndef.
Proof.
  intros Hty Hsel Hcoded Hcode.
  rewrite (decision_selected fs coding0 sels Hty Hsel Hcoded).
  rewrite (card_for_other fs coding0 Hcoded Hcode). cbn [bind].
  set (fs' := assign "medicationCodeableConcept" aspirin_concept fs).
  assert (Hty' : medication_order fs').
  { unfold medication_order, fs'.
    now rewrite !lookup_assign_other by discriminate. }
  assert (Href : reference fs' = reference fs).
  { unfold reference, fs'. now rewrite !lookup_assign_other by discriminate. }
  assert (Hcoded' : coded_medication fs'
                      [("display", VStr "Aspirin 81 MG Oral Tablet");
                       ("system",
                        VStr "http://www.nlm.nih.gov/research/umls/rxnorm");
                       ("code", VStr "243670")]).
  { eexists _, _. split; [apply lookup_assign_same | reflexivity]. }
  eexists _, _. split; [reflexivity |]. split; [reflexivity |].
  change (suggested_resource _) with (VObj fs').
  rewrite (decision_selected fs' _ sels Hty'
             ltac:(rewrite Href; exact Hsel) Hcoded').
  rewrite (card_for_target fs' _ Hcoded' eq_refl). cbn [bind].
  repeat split.
Qed.

(** The decision taken twice for an order of another medication. *)
Lemma accepted_suggestion_gets_info_card_witness :
  exists warning info,
    order_select_decision
      (VObj [("resourceType", VStr "MedicationOrder");
             ("id", VStr "7");
             ("medicationCodeableConcept",
              VObj [("coding", VArr [VObj [("code", VStr "11111")]])])])
      (VArr [VStr "MedicationOrder/7"])
    = Ok (Some warning)
    /\ order_select_decision (suggested_resource warning)
         (VArr [VStr "MedicationOrder/7"])
       = Ok (Some info)
    /\ field "indicator" (first (field "cards" info)) = VStr "info".
Proof.
  destruct
    (accepted_suggestion_gets_info_card
       [("resourceType", VStr "MedicationOrder");
        ("id", VStr "7");
        ("medicationCodeableConcept",
         VObj [("coding", VArr [VObj [("code", VStr "11111")]])])]
       [("code", VStr "11111")]
       [VStr "MedicationOrder/7"])
    as (warning & info & H1 & _ & H3 & H4 & _).
  - right. reflexivity.
  - left. reflexivity.
  - eexists _, _. split; reflexivity.
  - discriminate.
  - exists warning, info. repeat split; assumption.
Defined.

